(** * lastuser: the OAuth2 authorization and token endpoints of [server/website.py]

    A shallow embedding of the two OAuth2 server routes ([/auth] and
    [/token]) together with the models, helpers and decorators they use,
    followed by the properties of the flows.

    Conventions of the embedding.
    - A Python value that may be [None] is an [option]; Python truthiness of
      such a value is [truthy].
    - [request.args] and [request.form] are multi-dicts: association lists
      whose [get] returns the first value of a key.
    - The database is a record of tables, each table the list of its rows in
      insertion order; [.first()] is the first row that satisfies the filter.
      A relation is represented by its foreign key.
    - A view either returns a response or is left by an exception:
      [outcome].  Views run in a small state-and-exception monad [M] over
      [State] (database, SQLAlchemy session, entropy consumed so far).
    - A request is handled at one instant [now] ([datetime.utcnow()]),
      in microseconds.
    - A string is the list of its characters; the values of a request are
      unicode strings, and [str] of one raises [UnicodeEncodeError] unless
      every character is ASCII ([is_ascii]).
    - A dict that is iterated is given by its entries in the order of
      insertion, and [dict_items] lists them as CPython 2 does; Flask's
      [session] is a dict of texts, booleans and flashed messages
      ([Cookie]).
    - Library functions ([urlparse], [urlencode] on ASCII strings,
      [uuid4], werkzeug's password check, [url_for]) are variables of the
      section [Server]. *)

From Stdlib Require Import String Ascii List ZArith Bool Lia.
Import ListNotations.
Open Scope string_scope.
Open Scope Z_scope.

(** ** Python values *)

(** [bool(x)] for [x] a string or [None]. *)
Definition truthy (x : option string) : bool :=
  match x with
  | None => false
  | Some EmptyString => false
  | Some (String _ _) => true
  end.

(** The string held by a truthy optional string. *)
Definition nonblank (x : option string) : option string :=
  if truthy x then x else None.

(** [x == y] for optional strings ([None] equals only [None]). *)
Definition opt_eqb (x y : option string) : bool :=
  match x, y with
  | None, None => true
  | Some a, Some b => String.eqb a b
  | _, _ => false
  end.

(** [d.get(key)] on a multi-dict. *)
Fixpoint get (key : string) (d : list (string * string)) : option string :=
  match d with
  | [] => None
  | (k, v) :: rest => if String.eqb k key then Some v else get key rest
  end.

(** [d.get(key, default)]. *)
Definition get_default (key default : string) (d : list (string * string)) : string :=
  match get key d with
  | Some v => v
  | None => default
  end.

(** [key in d]. *)
Definition has_key (key : string) (d : list (string * string)) : bool :=
  match get key d with
  | Some _ => true
  | None => false
  end.

(** [s.split(u' ')]: the pieces of [s] between single spaces.  The result
    always has at least one element; [u''.split(u' ')] is [[u'']]. *)
Fixpoint split_space (s : string) : list string :=
  match s with
  | EmptyString => [EmptyString]
  | String c rest =>
      if Ascii.eqb c " "%char then EmptyString :: split_space rest
      else match split_space rest with
           | [] => [String c EmptyString]
           | w :: ws => String c w :: ws
           end
  end.

(** [u' '.join(l)]. *)
Definition join_space (l : list string) : string := String.concat " " l.

(** [bool(l)] for a list. *)
Definition nonempty_list {A : Type} (l : list A) : bool :=
  match l with
  | [] => false
  | _ :: _ => true
  end.

(** [x in l] for strings. *)
Definition mem (x : string) (l : list string) : bool := existsb (String.eqb x) l.

(** [set(a).issubset(set(b))]. *)
Definition issubset (a b : list string) : bool := forallb (fun x => mem x b) a.

(** [a == b] for lists of strings. *)
Fixpoint list_eqb (a b : list string) : bool :=
  match a, b with
  | [], [] => true
  | x :: a', y :: b' => String.eqb x y && list_eqb a' b'
  | _, _ => false
  end.

(** ['@' in s]. *)
Fixpoint contains_at (s : string) : bool :=
  match s with
  | EmptyString => false
  | String c rest => Ascii.eqb c "@"%char || contains_at rest
  end.

(** Whether every character of [s] is ASCII: [str(s)] of a unicode string
    succeeds exactly then. *)
Definition is_ascii (s : string) : bool :=
  forallb (fun c => Nat.ltb (nat_of_ascii c) 128) (list_ascii_of_string s).

(** The loop of CPython 2's [string_hash], on 64 bits:
    [x = (1000003*x) ^ *p++]. *)
Fixpoint string_hash_loop (x : Z) (s : string) : Z :=
  match s with
  | EmptyString => x
  | String c rest =>
      string_hash_loop
        (Z.lxor ((1000003 * x) mod 2 ^ 64) (Z.of_nat (nat_of_ascii c))) rest
  end.

(** CPython 2's hash of a string (hash randomization is off by default),
    as an unsigned 64-bit number: [x = *p << 7], the loop, [x ^= len],
    and [-2] in place of [-1]. *)
Definition string_hash (s : string) : Z :=
  let x0 := match s with
            | EmptyString => 0
            | String c _ => Z.shiftl (Z.of_nat (nat_of_ascii c)) 7
            end in
  let x := Z.lxor (string_hash_loop x0 s) (Z.of_nat (String.length s)) in
  if x =? 2 ^ 64 - 1 then 2 ^ 64 - 2 else x.

(** The slot a key first lands in, in a dict of eight slots (the size of
    every dict with at most five entries): the three low bits of its
    hash, the same on 32-bit and 64-bit builds. *)
Definition dict_slot (key : string) : Z := Z.land (string_hash key) 7.

Fixpoint insert_by_slot (kv : string * string) (l : list (string * string))
    : list (string * string) :=
  match l with
  | [] => [kv]
  | x :: rest =>
      if dict_slot (fst kv) <? dict_slot (fst x) then kv :: l
      else x :: insert_by_slot kv rest
  end.

(** [d.items()] for a dict [d] of at most five entries, given by its
    entries in the order of insertion: CPython 2 lists the entries in the
    order of their slots.  Keys that share a slot are probed to other
    slots by the interpreter and kept in insertion order here; the keys of
    the dicts of this program ([error], [state], [error_description],
    [error_uri], [code]) have five different slots. *)
Definition dict_items (d : list (string * string)) : list (string * string) :=
  fold_left (fun acc kv => insert_by_slot kv acc) d [].

(** ** Models *)

Module User.
(** Columns [id], [userid], [fullname], [username], [pw_hash]. *)
Record t : Type := mk {
  id : nat;
  userid : string;
  fullname : option string;
  username : option string;
  pw_hash : option string
}.
End User.

Module UserEmail.
(** Columns [id], [user_id], [email]; [primary], [status] and
    [verification_code] play no part in the two flows. *)
Record t : Type := mk {
  id : nat;
  user_id : nat;
  email : option string
}.
End UserEmail.

Module Client.
(** Columns [id], [user_id], [title], [redirect_uri], [active],
    [readonly], [key], [secret], [trusted]; the descriptive columns
    ([description], [owner], [website]) and the audit dates are left out. *)
Record t : Type := mk {
  id : nat;
  user_id : nat;
  title : string;
  redirect_uri : string;
  active : bool;
  readonly : bool;
  key : string;
  secret : string;
  trusted : bool
}.
End Client.

Module AuthCode.
(** A row of [authcode]. *)
Record t : Type := mk {
  user_id : nat;
  client_id : nat;
  code : string;
  _scope : string;
  redirect_uri : string;
  datetime : Z;
  used : bool
}.

(** The [scope] property. *)
Definition scope (a : t) : list string := split_space (_scope a).

(** An [AuthCode] object that has not been inserted yet.  SQLAlchemy
    applies a column's [default] when the row is inserted, so [datetime]
    and [used], which the flow never assigns, are not part of it. *)
Record transient : Type := new {
  t_user_id : nat;
  t_client_id : nat;
  t_code : string;
  t__scope : string;
  t_redirect_uri : string
}.

(** INSERT at time [now]: [datetime] defaults to [utcnow()], [used] to
    [False]. *)
Definition insert (now : Z) (o : transient) : t :=
  {| user_id := t_user_id o;
     client_id := t_client_id o;
     code := t_code o;
     _scope := t__scope o;
     redirect_uri := t_redirect_uri o;
     datetime := now;
     used := false |}.
End AuthCode.

Module AuthToken.
(** A row of [authtoken]. *)
Record t : Type := mk {
  user_id : option nat;
  client_id : nat;
  token : string;
  token_type : string;
  secret : option string;
  _algorithm : option string;
  _scope : string;
  created_datetime : Z;
  validity : Z;
  refresh_token : string;
  updated_datetime : Z
}.

Definition scope (a : t) : list string := split_space (_scope a).

(** An [AuthToken] object that has not been inserted yet.  The columns
    with a [default] that the flow never assigns ([token_type],
    [validity] and the two dates) read [None] on such an object: the
    default is applied by the INSERT. *)
Record transient : Type := new {
  t_user_id : option nat;
  t_client_id : nat;
  t_token : string;
  t_token_type : option string;
  t_secret : option string;
  t__algorithm : option string;
  t__scope : string;
  t_validity : option Z;
  t_refresh_token : string
}.

Definition t_scope (o : transient) : list string := split_space (t__scope o).

(** INSERT at time [now], with the column defaults
    [token_type='bearer'], [validity=0], [utcnow]. *)
Definition insert (now : Z) (o : transient) : t :=
  {| user_id := t_user_id o;
     client_id := t_client_id o;
     token := t_token o;
     token_type := match t_token_type o with Some ty => ty | None => "bearer" end;
     secret := t_secret o;
     _algorithm := t__algorithm o;
     _scope := t__scope o;
     created_datetime := now;
     validity := match t_validity o with Some v => v | None => 0 end;
     refresh_token := t_refresh_token o;
     updated_datetime := now |}.
End AuthToken.

(** ** Database, session and state *)

Record Database : Type := {
  users : list User.t;
  useremails : list UserEmail.t;
  clients : list Client.t;
  authcodes : list AuthCode.t;
  authtokens : list AuthToken.t
}.

(** Objects handed to [db.session.add] and not yet committed. *)
Inductive pending : Type :=
| NewAuthCode (o : AuthCode.transient)
| NewAuthToken (o : AuthToken.transient).

Record State : Type := {
  db : Database;
  session : list pending;
  entropy : nat
}.

(** ** Requests and responses *)

Inductive http_method : Type := GET | POST.

Module Request.
(** [url], [method], [args] (query string), [form] (body), and whether
    the CSRF token of a submitted form validates. *)
Record t : Type := mk {
  url : string;
  method : http_method;
  args : list (string * string);
  form : list (string * string);
  csrf_valid : bool
}.
End Request.

Inductive json : Type :=
| JNull
| JStr (s : string)
| JInt (z : Z).

Inductive response : Type :=
| redirect (location : string) (code : Z)
| oauth403_html (reason : string)
| authorize_html (client : Client.t) (redirect_uri : string)
                 (scope : list string) (state : option string)
| jsonify (params : list (string * json)) (status_code : Z)
          (headers : list (string * string)).

Definition status (r : response) : Z :=
  match r with
  | redirect _ c => c
  | oauth403_html _ => 403
  | authorize_html _ _ _ _ => 200
  | jsonify _ c _ => c
  end.

Definition is_redirect (r : response) : bool :=
  match r with
  | redirect _ _ => true
  | _ => false
  end.

(** ** Outcomes and the monad of views *)

Inductive pyexn : Type :=
| AttributeError
| TypeError
| ValueError
| UnicodeEncodeError.

Inductive outcome (A : Type) : Type :=
| Returned (a : A)
| Raised (e : pyexn).
Arguments Returned {A} a.
Arguments Raised {A} e.

Definition M (A : Type) : Type := State -> outcome A * State.

Definition ret {A : Type} (a : A) : M A := fun s => (Returned a, s).

Definition raise {A : Type} (e : pyexn) : M A := fun s => (Raised e, s).

Definition bind {A B : Type} (m : M A) (k : A -> M B) : M B :=
  fun s =>
    match m s with
    | (Returned a, s') => k a s'
    | (Raised e, s') => (Raised e, s')
    end.

Notation "x <- m ;; k" := (bind m (fun x => k))
  (at level 61, m at next level, right associativity).
Notation "m ;;; k" := (bind m (fun _ => k))
  (at level 61, right associativity).

Definition read_db : M Database := fun s => (Returned (db s), s).

(** [db.session.add(obj)]. *)
Definition db_session_add (o : pending) : M unit :=
  fun s => (Returned tt,
            {| db := db s; session := session s ++ [o]; entropy := entropy s |}).

(** One INSERT. *)
Definition flush_one (now : Z) (d : Database) (o : pending) : Database :=
  match o with
  | NewAuthCode a =>
      {| users := users d; useremails := useremails d; clients := clients d;
         authcodes := authcodes d ++ [AuthCode.insert now a];
         authtokens := authtokens d |}
  | NewAuthToken a =>
      {| users := users d; useremails := useremails d; clients := clients d;
         authcodes := authcodes d;
         authtokens := authtokens d ++ [AuthToken.insert now a] |}
  end.

(** [db.session.commit()] at time [now]: every pending object is inserted. *)
Definition db_session_commit (now : Z) : M unit :=
  fun s => (Returned tt,
            {| db := fold_left (flush_one now) (session s) (db s);
               session := [];
               entropy := entropy s |}).

(** Flask-SQLAlchemy gives each request a session of its own and removes
    it when the request ends: a request starts with nothing pending, and
    what it has not committed is discarded. *)
Definition serve {A : Type} (view : M A) (s : State) : outcome A * State :=
  let '(r, s') := view {| db := db s; session := []; entropy := entropy s |} in
  (r, {| db := db s'; session := []; entropy := entropy s' |}).

Module Session.
(** The browser session of a request: Flask's [session] dict. *)
Definition t : Type := list (string * string).
End Session.

(** [urlparse.SplitResult]: the five parts of a URL. *)
Record SplitResult : Type := {
  scheme : string;
  netloc : string;
  path : string;
  query : string;
  fragment : string
}.

(** ** Queries *)

(** [Client.query.filter_by(key=client_id).first()]. *)
Definition Client_by_key (client_id : option string) (d : Database) : option Client.t :=
  find (fun c => opt_eqb (Some (Client.key c)) client_id) (clients d).

(** [AuthCode.query.filter_by(code=code, client=client).first()]. *)
Definition AuthCode_by_code_client (code : option string) (client : Client.t)
    (d : Database) : option AuthCode.t :=
  find (fun a => opt_eqb (Some (AuthCode.code a)) code
                 && Nat.eqb (AuthCode.client_id a) (Client.id client))
       (authcodes d).

(** [UserEmail.query.filter_by(email=name).first()]. *)
Definition UserEmail_by_email (name : string) (d : Database) : option UserEmail.t :=
  find (fun e => opt_eqb (UserEmail.email e) (Some name)) (useremails d).

(** The [user] relation of a [UserEmail]. *)
Definition UserEmail_user (e : UserEmail.t) (d : Database) : option User.t :=
  find (fun u => Nat.eqb (User.id u) (UserEmail.user_id e)) (users d).

(** [User.query.filter_by(username=name).first()]. *)
Definition User_by_username (name : string) (d : Database) : option User.t :=
  find (fun u => opt_eqb (User.username u) (Some name)) (users d).

(** [User.query.filter_by(userid=userid).first()]. *)
Definition User_by_userid (userid : string) (d : Database) : option User.t :=
  find (fun u => String.eqb (User.userid u) userid) (users d).

(** [timedelta(minutes=1)], in microseconds (the resolution of
    [datetime]). *)
Definition one_minute : Z := 60 * 1000000.

(** [n] seconds, in microseconds. *)
Definition seconds (n : Z) : Z := n * 1000000.

Section Server.

(** *** Library functions *)

(** [urlsafe_b64encode(uuid.uuid4().bytes).rstrip('=')] at the [n]-th
    call: the entropy source. *)
Variable newid_at : nat -> string.
(** [urlparse.urlsplit], the [hostname] property of its result,
    [urlparse.parse_qsl(_, keep_blank_values=True)] and
    [urlparse.urlunsplit], on strings; and what [urllib.urlencode] makes
    of a list of pairs of ASCII strings. *)
Variable urlsplit : string -> SplitResult.
Variable hostname : SplitResult -> option string.
Variable parse_qsl : string -> list (string * string).
Variable urlencode_ascii : list (string * string) -> string.
Variable urlunsplit : SplitResult -> string.
(** werkzeug's [check_password_hash] on a hash string. *)
Variable check_password_hash : string -> string -> bool.
(** [url_for('login', next=url)]. *)
Variable url_for_login : string -> string.

(** *** Utilities *)

Definition newid : M string :=
  fun s => (Returned (newid_at (entropy s)),
            {| db := db s; session := session s; entropy := S (entropy s) |}).

Definition newsecret : M string :=
  a <- newid ;; b <- newid ;; ret (a ++ b)%string.

(** [make_query_string], which is [urllib.urlencode]: every key and value
    goes through [str], which raises [UnicodeEncodeError] on a unicode
    string that is not ASCII, before it is quoted.  The query values of a
    request and the parts of a URL are unicode strings; the byte strings
    that reach this function (keywords, error names, identifiers of
    [newid]) are ASCII. *)
Definition make_query_string (query : list (string * string)) : outcome string :=
  if forallb (fun kv => is_ascii (fst kv) && is_ascii (snd kv)) query
  then Returned (urlencode_ascii query)
  else Raised UnicodeEncodeError.

(** The body of [make_redirect_url(url, **params)] for a string [url];
    [params] is the dict of the keyword arguments, given by its entries
    in the order of insertion. *)
Definition redirect_url (url : string) (params : list (string * string))
    : outcome string :=
  let urlparts := urlsplit url in
  let queryparts := (parse_qsl (query urlparts) ++ dict_items params)%list in
  match make_query_string queryparts with
  | Raised e => Raised e
  | Returned q =>
      Returned (urlunsplit {| scheme := scheme urlparts;
                              netloc := netloc urlparts;
                              path := path urlparts;
                              query := q;
                              fragment := fragment urlparts |})
  end.

(** [make_redirect_url(url, **params)], where [url] may be [None]:
    [urlsplit(None)] raises [AttributeError] ([None] has no [find]). *)
Definition make_redirect_url (url : option string)
    (params : list (string * string)) : M string :=
  match url with
  | None => raise AttributeError
  | Some u => fun s => (redirect_url u params, s)
  end.

(** [redirect(make_redirect_url(url, **params), code=code)] for a string
    [url]: the response, or the exception of the URL's construction. *)
Definition redirect_to (url : string) (params : list (string * string)) (code : Z)
    : outcome response :=
  match redirect_url url params with
  | Raised e => Raised e
  | Returned location => Returned (redirect location code)
  end.

(** [User.check_password]: werkzeug calls [pwhash.count], which a
    [None] hash does not have. *)
Definition check_password (user : User.t) (password : string) : M bool :=
  match User.pw_hash user with
  | None => raise AttributeError
  | Some h => ret (check_password_hash h password)
  end.

(** *** Login *)

(** [lookup_current_user]: the value of [g.user] for a request. *)
Definition lookup_current_user (sess : Session.t) (d : Database) : option User.t :=
  match get "userid" sess with
  | Some userid => User_by_userid userid d
  | None => None
  end.

(** The [requires_login] decorator (the flashed message is not
    modelled). *)
Definition requires_login (f : User.t -> Request.t -> Z -> M response)
    (g_user : option User.t) (request : Request.t) (now : Z) : M response :=
  match g_user with
  | None => ret (redirect (url_for_login (Request.url request)) 302)
  | Some user => f user request now
  end.

(** *** Authorization endpoint *)

Definition oauth_auth_403 (reason : string) : response := oauth403_html reason.

Definition oauth_make_auth_code (g_user : User.t) (client : Client.t)
    (scope : list string) (redirect_uri : string) : M string :=
  code <- newsecret ;;
  let authcode :=
    AuthCode.new (User.id g_user) (Client.id client) code
                 (join_space scope) redirect_uri in
  db_session_add (NewAuthCode authcode) ;;;
  ret (AuthCode.t_code authcode).

Definition oauth_auth_success (now : Z) (redirect_uri : string)
    (state : option string) (code : string) : M response :=
  db_session_commit now ;;;
  match state with
  | None =>
      url <- make_redirect_url (Some redirect_uri) [("code", code)] ;;
      ret (redirect url 302)
  | Some st =>
      url <- make_redirect_url (Some redirect_uri) [("code", code); ("state", st)] ;;
      ret (redirect url 302)
  end.

(** The [params] dict of [oauth_auth_error], by its entries in the order
    in which the function inserts them. *)
Definition auth_error_params (state : option string) (error : string)
    (error_description error_uri : option string) : list (string * string) :=
  ([("error", error)]
   ++ match state with Some st => [("state", st)] | None => [] end
   ++ match error_description with Some e => [("error_description", e)] | None => [] end
   ++ match error_uri with Some e => [("error_uri", e)] | None => [] end)%list.

Definition oauth_auth_error (redirect_uri : option string) (state : option string)
    (error : string) (error_description error_uri : option string) : M response :=
  let params := auth_error_params state error error_description error_uri in
  url <- make_redirect_url redirect_uri params ;;
  ret (redirect url 302).

(** [form.validate_on_submit()] of the field-less [AuthorizeForm]. *)
Definition validate_on_submit (request : Request.t) : bool :=
  match Request.method request with
  | POST => Request.csrf_valid request
  | GET => false
  end.

(** [oauth_authorize] from "Validation 2.1" to its end, with
    [redirect_uri] as "Validation 1.4" left it. *)
Definition oauth_authorize_from_2_1 (g_user : User.t) (request : Request.t)
    (now : Z) (client : Client.t) (redirect_uri : string)
    (response_type : option string) (scope : list string)
    (state : option string) : M response :=
  (* Validation 2.1: Is response_type present? *)
  if negb (truthy response_type) then
    oauth_auth_error (Some redirect_uri) state "invalid_request"
                     (Some "response_type missing") None
  (* Validation 2.2: Is response_type acceptable? *)
  else if negb (opt_eqb response_type (Some "code")) then
    oauth_auth_error (Some redirect_uri) state "unsupported_response_type" None None
  (* Validation 3.1: Scope present? *)
  else if negb (nonempty_list scope) then
    oauth_auth_error (Some redirect_uri) state "invalid_request"
                     (Some "Scope not specified") None
  else if negb (list_eqb scope ["id"]) then
    oauth_auth_error (Some redirect_uri) state "invalid_scope" None None
  else if (match Request.method request with GET => true | POST => false end)
          && Client.trusted client then
    code <- oauth_make_auth_code g_user client scope redirect_uri ;;
    oauth_auth_success now redirect_uri state code
  else if validate_on_submit request then
    if has_key "accept" (Request.form request) then
      code <- oauth_make_auth_code g_user client scope redirect_uri ;;
      oauth_auth_success now redirect_uri state code
    else if has_key "deny" (Request.form request) then
      oauth_auth_error (Some redirect_uri) state "access_denied" None None
    else
      ret (authorize_html client redirect_uri scope state)
  else
    ret (authorize_html client redirect_uri scope state).

(** "Validation 1.4" on its own: the redirect URI the flow goes on
    with, or [None] when the request is rejected there. *)
Definition cross_check_redirect_uri (client : Client.t)
    (redirect_uri : option string) : option string :=
  match nonblank redirect_uri with
  | None => Some (Client.redirect_uri client)
  | Some uri =>
      if negb (String.eqb uri (Client.redirect_uri client)) then
        if negb (opt_eqb (hostname (urlsplit uri))
                         (hostname (urlsplit (Client.redirect_uri client))))
        then None
        else Some uri
      else Some uri
  end.

(** The view [oauth_authorize], for the logged-in user [g_user]. *)
Definition oauth_authorize (g_user : User.t) (request : Request.t) (now : Z)
    : M response :=
  let response_type := get "response_type" (Request.args request) in
  let client_id := get "client_id" (Request.args request) in
  let redirect_uri := get "redirect_uri" (Request.args request) in
  let scope := split_space (get_default "scope" "" (Request.args request)) in
  let state := get "state" (Request.args request) in
  (* Validation 1.1: Client_id present *)
  if negb (truthy client_id) then
    if truthy redirect_uri then
      oauth_auth_error redirect_uri state "invalid_request"
                       (Some "client_id missing") None
    else
      ret (oauth_auth_403 "Missing client_id")
  else
    d <- read_db ;;
    (* Validation 1.2: Client exists *)
    match Client_by_key client_id d with
    | None =>
        if truthy redirect_uri then
          oauth_auth_error redirect_uri state "unauthorized_client" None None
        else
          ret (oauth_auth_403 "Unknown client_id")
    | Some client =>
        (* Validation 1.3: Is the client active? *)
        if negb (Client.active client) then
          oauth_auth_error redirect_uri state "unauthorized_client" None None
        else
          (* Validation 1.4: Cross-check redirection_uri *)
          match nonblank redirect_uri with
          | None =>
              oauth_authorize_from_2_1 g_user request now client
                (Client.redirect_uri client) response_type scope state
          | Some uri =>
              if negb (String.eqb uri (Client.redirect_uri client)) then
                if negb (opt_eqb (hostname (urlsplit uri))
                                 (hostname (urlsplit (Client.redirect_uri client))))
                then
                  oauth_auth_error (Some uri) state "invalid_request"
                    (Some "Redirect URI hostname doesn't match") None
                else
                  oauth_authorize_from_2_1 g_user request now client uri
                    response_type scope state
              else
                oauth_authorize_from_2_1 g_user request now client uri
                  response_type scope state
          end
    end.

(** The route [/auth]: [lookup_current_user], then the decorated view. *)
Definition auth_route (sess : Session.t) (request : Request.t) (now : Z)
    (s : State) : outcome response * State :=
  serve (requires_login oauth_authorize (lookup_current_user sess (db s)) request now) s.

(** The authorization flow for an authenticated user. *)
Definition authorize (g_user : User.t) (request : Request.t) (now : Z)
    (s : State) : outcome response * State :=
  serve (oauth_authorize g_user request now) s.

(** *** Token endpoint *)

Definition oauth_token_error (error : string)
    (error_description error_uri : option string) : response :=
  let params :=
    ([("error", JStr error)]
     ++ match error_description with Some e => [("error_description", JStr e)] | None => [] end
     ++ match error_uri with Some e => [("error_uri", JStr e)] | None => [] end)%list in
  jsonify params 400 [].

(** [oauth_make_token(user, client, scope)]; [user] is the user's id, or
    [None]. *)
Definition oauth_make_token (user : option nat) (client : Client.t)
    (scope : list string) : M AuthToken.transient :=
  tok <- newid ;;
  refresh <- newid ;;
  sec <- newsecret ;;
  let token :=
    {| AuthToken.t_user_id := user;
       AuthToken.t_client_id := Client.id client;
       AuthToken.t_token := tok;
       AuthToken.t_token_type := None;
       AuthToken.t_secret := Some sec;
       AuthToken.t__algorithm := None;
       AuthToken.t__scope := join_space scope;
       AuthToken.t_validity := None;
       AuthToken.t_refresh_token := refresh |} in
  db_session_add (NewAuthToken token) ;;;
  ret token.

(** The object [oauth_make_token(user, client, scope)] builds when [n]
    identifiers have been drawn before. *)
Definition made_token (user : option nat) (client : Client.t)
    (scope : list string) (n : nat) : AuthToken.transient :=
  {| AuthToken.t_user_id := user;
     AuthToken.t_client_id := Client.id client;
     AuthToken.t_token := newid_at n;
     AuthToken.t_token_type := None;
     AuthToken.t_secret := Some (newid_at (S (S n)) ++ newid_at (S (S (S n))))%string;
     AuthToken.t__algorithm := None;
     AuthToken.t__scope := join_space scope;
     AuthToken.t_validity := None;
     AuthToken.t_refresh_token := newid_at (S n) |}.

(** [bool(token.validity)]. *)
Definition validity_truthy (v : option Z) : bool :=
  match v with
  | None => false
  | Some z => negb (z =? 0)
  end.

Definition json_of_option (x : option string) : json :=
  match x with
  | None => JNull
  | Some v => JStr v
  end.

Definition oauth_token_success (now : Z) (token : AuthToken.transient) : M response :=
  let params :=
    [("access_token", JStr (AuthToken.t_token token));
     ("token_type", json_of_option (AuthToken.t_token_type token));
     ("scope", JStr (join_space (AuthToken.t_scope token)))] in
  let params :=
    if validity_truthy (AuthToken.t_validity token) then
      (params
       ++ [("expires_in", match AuthToken.t_validity token with
                          | Some v => JInt v
                          | None => JNull
                          end);
           ("refresh_token", JStr (AuthToken.t_refresh_token token))])%list
    else params in
  let response := jsonify params 200 [("Cache-Control", "no-store")] in
  db_session_commit now ;;;
  ret response.

(** [oauth_token], [grant_type == 'authorization_code'], from
    "Validations 3.1" to the end of the branch. *)
Definition oauth_token_from_3_1 (now : Z) (client : Client.t)
    (authcode : AuthCode.t) (scope : list string)
    (redirect_uri : option string) : M response :=
  (* Validations 3.1: scope in authcode *)
  if negb (nonempty_list scope) then
    ret (oauth_token_error "invalid_scope" (Some "Scope is blank") None)
  else if negb (issubset scope (AuthCode.scope authcode)) then
    (* [raise oauth_token_error(...)]: the operand is a response, not an
       exception, and the statement fails with [TypeError] *)
    raise TypeError
  else
    (* Scope not provided. Use whatever the authcode allows *)
    let scope := AuthCode.scope authcode in
    if negb (opt_eqb redirect_uri (Some (AuthCode.redirect_uri authcode))) then
      ret (oauth_token_error "invalid_client" (Some "redirect_uri does not match") None)
    else
      token <- oauth_make_token (Some (AuthCode.user_id authcode)) client scope ;;
      oauth_token_success now token.

(** [oauth_token], the branch [grant_type == 'authorization_code']. *)
Definition oauth_token_authorization_code (now : Z) (client : Client.t)
    (code : option string) (scope : list string)
    (redirect_uri : option string) : M response :=
  d <- read_db ;;
  (* Validations 3: auth code *)
  match AuthCode_by_code_client code client d with
  | None => ret (oauth_token_error "invalid_grant" (Some "Unknown auth code") None)
  | Some authcode =>
      if AuthCode.datetime authcode <? now - one_minute then
        ret (oauth_token_error "invalid_grant" (Some "Expired auth code") None)
      else
        oauth_token_from_3_1 now client authcode scope redirect_uri
  end.

(** [oauth_token], the branch [grant_type == 'password']. *)
Definition oauth_token_password (now : Z) (client : Client.t)
    (scope : list string) (username password : option string) : M response :=
  (* Validations 4.1: password grant_type is only for trusted clients *)
  if negb (Client.trusted client) then
    ret (oauth_token_error "unauthorized_client"
           (Some "Client is not trusted for password grant_type") None)
  else
    (* Validations 4.2: Are username and password provided and correct? *)
    match nonblank username, nonblank password with
    | Some name, Some pw =>
        d <- read_db ;;
        user <- (if contains_at name then
                   match UserEmail_by_email name d with
                   | None => raise AttributeError
                   | Some useremail => ret (UserEmail_user useremail d)
                   end
                 else ret (User_by_username name d)) ;;
        match user with
        | None => ret (oauth_token_error "invalid_client" (Some "No such user") None)
        | Some u =>
            ok <- check_password u pw ;;
            if negb ok then
              ret (oauth_token_error "invalid_client" (Some "Password mismatch") None)
            else
              token <- oauth_make_token (Some (User.id u)) client scope ;;
              oauth_token_success now token
        end
    | _, _ =>
        ret (oauth_token_error "invalid_request"
               (Some "Username or password not provided") None)
    end.

(** What Flask does with a view that returns [None]; the grant types
    that pass the membership test are exactly the three branches, so
    [oauth_token] never gets there. *)
Definition view_returned_none : M response := raise ValueError.

(** The view [oauth_token]. *)
Definition oauth_token (request : Request.t) (now : Z) : M response :=
  let grant_type := get "grant_type" (Request.form request) in
  let client_id := get "client_id" (Request.form request) in
  let client_secret := get "client_secret" (Request.form request) in
  let scope := split_space (get_default "scope" "" (Request.form request)) in
  let code := get "code" (Request.form request) in
  let redirect_uri := get "redirect_uri" (Request.form request) in
  let username := get "username" (Request.form request) in
  let password := get "password" (Request.form request) in
  (* Validations 1: Required parameters *)
  if negb (truthy grant_type) || negb (truthy client_id) || negb (truthy client_secret) then
    ret (oauth_token_error "invalid_request" None None)
  else if negb (opt_eqb grant_type (Some "authorization_code")
                || opt_eqb grant_type (Some "client_credentials")
                || opt_eqb grant_type (Some "password")) then
    ret (oauth_token_error "unsupported_grant_type" None None)
  else
    d <- read_db ;;
    (* Validations 2: client *)
    match Client_by_key client_id d with
    | None => ret (oauth_token_error "invalid_client" (Some "Unknown client_id") None)
    | Some client =>
        if negb (Client.active client) then
          ret (oauth_token_error "invalid_client" (Some "Unknown client_id") None)
        else if negb (opt_eqb client_secret (Some (Client.secret client))) then
          ret (oauth_token_error "invalid_client" (Some "client_secret mismatch") None)
        else if opt_eqb grant_type (Some "password") && negb (Client.trusted client) then
          ret (oauth_token_error "unauthorized_client"
                 (Some "Client not trusted for password grant_type") None)
        else if opt_eqb grant_type (Some "authorization_code") then
          oauth_token_authorization_code now client code scope redirect_uri
        else if opt_eqb grant_type (Some "client_credentials") then
          token <- oauth_make_token None client scope ;;
          oauth_token_success now token
        else if opt_eqb grant_type (Some "password") then
          oauth_token_password now client scope username password
        else
          view_returned_none
    end.

(** The route [/token]. *)
Definition token_route (request : Request.t) (now : Z) (s : State)
    : outcome response * State :=
  serve (oauth_token request now) s.

End Server.

(** ** A small instance

    Simple stand-ins for the library functions and a small database, on
    which the flows can be run. *)

Module Demo.

Definition newid_at (n : nat) : string :=
  ("r" ++ String.concat "" (repeat "x" n) ++ ".")%string.

(** [s] up to the first character that satisfies [p], and the rest. *)
Fixpoint break (p : ascii -> bool) (s : string) : string * string :=
  match s with
  | EmptyString => (EmptyString, EmptyString)
  | String c r =>
      if p c then (EmptyString, s)
      else let '(a, b) := break p r in (String c a, b)
  end.

Definition tail (s : string) : string :=
  match s with
  | EmptyString => EmptyString
  | String _ r => r
  end.

Definition is_char (c : ascii) : ascii -> bool := Ascii.eqb c.

(** [scheme://netloc/path?query#fragment]. *)
Definition urlsplit (url : string) : SplitResult :=
  let '(sch, rest) :=
    match String.index 0 "://" url with
    | Some i => (substring 0 i url,
                 substring (i + 3) (String.length url - (i + 3)) url)
    | None => (EmptyString, url)
    end in
  let '(loc, rest) :=
    match sch with
    | EmptyString => (EmptyString, rest)
    | _ => break (fun c => is_char "/" c || is_char "?" c || is_char "#" c) rest
    end in
  let '(pth, rest) := break (fun c => is_char "?" c || is_char "#" c) rest in
  let '(qry, frag) := break (is_char "#") (match rest with
                                            | String "?" r => r
                                            | _ => rest
                                            end) in
  {| scheme := sch; netloc := loc; path := pth; query := qry; fragment := tail frag |}.

Definition hostname (r : SplitResult) : option string :=
  match fst (break (is_char ":") (netloc r)) with
  | EmptyString => None
  | h => Some h
  end.

Fixpoint split_amp (s : string) : list string :=
  match s with
  | EmptyString => [EmptyString]
  | String c rest =>
      if is_char "&" c then EmptyString :: split_amp rest
      else match split_amp rest with
           | [] => [String c EmptyString]
           | w :: ws => String c w :: ws
           end
  end.

Definition parse_qsl (q : string) : list (string * string) :=
  match q with
  | EmptyString => []
  | _ => map (fun kv => let '(k, v) := break (is_char "=") kv in (k, tail v))
             (split_amp q)
  end.

Definition urlencode_ascii (l : list (string * string)) : string :=
  String.concat "&" (map (fun kv => (fst kv ++ "=" ++ snd kv)%string) l).

Definition urlunsplit (r : SplitResult) : string :=
  ((match scheme r with EmptyString => EmptyString | sch => sch ++ "://" end)
   ++ netloc r ++ path r
   ++ (match query r with EmptyString => EmptyString | q => "?" ++ q end)
   ++ (match fragment r with EmptyString => EmptyString | f => "#" ++ f end))%string.

Definition check_password_hash (h password : string) : bool :=
  String.eqb h ("hash:" ++ password)%string.

Definition url_for_login (next : string) : string := ("/login?next=" ++ next)%string.

Definition alice : User.t :=
  User.mk 1 "u-alice" (Some "Alice") (Some "alice") (Some "hash:wonderland").

Definition alice_email : UserEmail.t := UserEmail.mk 1 1 (Some "alice@example.com").

(** An active client that is not trusted. *)
Definition app : Client.t :=
  Client.mk 1 1 "App" "https://app.example/cb" true true "app-key" "app-secret" false.

(** An active, trusted client. *)
Definition sso : Client.t :=
  Client.mk 2 1 "SSO" "https://sso.example/cb" true true "sso-key" "sso-secret" true.

(** A client that has been deactivated. *)
Definition old : Client.t :=
  Client.mk 3 1 "Old" "https://old.example/cb" false true "old-key" "old-secret" false.

(** A grant of scope [id] to [app], issued at second 1000. *)
Definition grant : AuthCode.t :=
  AuthCode.mk 1 1 "c0de" "id" "https://app.example/cb" (1000 * 1000000) false.

Definition database : Database :=
  {| users := [alice];
     useremails := [alice_email];
     clients := [app; sso; old];
     authcodes := [grant];
     authtokens := [] |}.

Definition s0 : State := {| db := database; session := []; entropy := 0 |}.

Definition authorize :=
  authorize newid_at urlsplit hostname parse_qsl urlencode_ascii urlunsplit.

Definition token_route := token_route newid_at check_password_hash.

(** [GET /auth] with the given query string. *)
Definition auth_get (args : list (string * string)) : Request.t :=
  Request.mk "https://lastuser.example/auth" GET args [] false.

(** [POST /token] with the given form. *)
Definition token_post (form : list (string * string)) : Request.t :=
  Request.mk "https://lastuser.example/token" POST [] form false.

(** Redemption of [grant] by [app], with the given [scope] parameters. *)
Definition redeem (scope : list (string * string)) : Request.t :=
  token_post ([("grant_type", "authorization_code"); ("client_id", "app-key");
               ("client_secret", "app-secret"); ("code", "c0de");
               ("redirect_uri", "https://app.example/cb")] ++ scope).

End Demo.

(** ** The rest of the site: login form and logout *)

(** [' ' in s]. *)
Fixpoint contains_space (s : string) : bool :=
  match s with
  | EmptyString => false
  | String c rest => Ascii.eqb c " "%char || contains_space rest
  end.

(** A value of Flask's [session] dict, as this site stores them: the text
    under [userid], the boolean Flask keeps under [_permanent], and the
    list of (category, message) pairs Flask keeps under [_flashes]. *)
Inductive session_value : Type :=
| SText (s : string)
| SBool (b : bool)
| SFlashes (l : list (string * string)).

(** Flask's [session] with all its keys. *)
Definition Cookie : Type := list (string * session_value).

(** [session.get(key)]. *)
Fixpoint lookup (key : string) (sess : Cookie) : option session_value :=
  match sess with
  | [] => None
  | (k, v) :: rest => if String.eqb k key then Some v else lookup key rest
  end.

(** [session[key] = v]. *)
Fixpoint setitem (key : string) (v : session_value) (sess : Cookie) : Cookie :=
  match sess with
  | [] => [(key, v)]
  | (k, w) :: rest =>
      if String.eqb k key then (key, v) :: rest else (k, w) :: setitem key v rest
  end.

(** [del session[key]]: [None] stands for [KeyError]. *)
Definition del (key : string) (sess : Cookie) : option Cookie :=
  match lookup key sess with
  | None => None
  | Some _ => Some (filter (fun kv => negb (String.eqb (fst kv) key)) sess)
  end.

(** The text entries of the session, which is what [lookup_current_user]
    reads. *)
Fixpoint texts (sess : Cookie) : Session.t :=
  match sess with
  | [] => []
  | (k, SText v) :: rest => (k, v) :: texts rest
  | _ :: rest => texts rest
  end.

(** The messages flashed and not yet shown:
    [session.setdefault('_flashes', [])]; [None] when the key holds
    something that is not a list. *)
Definition pending_flashes (sess : Cookie) : option (list (string * string)) :=
  match lookup "_flashes" sess with
  | None => Some []
  | Some (SFlashes l) => Some l
  | Some _ => None
  end.

(** [session.permanent = value]: Flask stores it under [_permanent]. *)
Definition set_permanent (value : bool) (sess : Cookie) : Cookie :=
  setitem "_permanent" (SBool value) sess.

(** [flash(message, category=category)]: Flask appends the pair to the
    list under [_flashes]; [None] stands for the [AttributeError] of
    [append] on something that is not a list. *)
Definition flash (message category : string) (sess : Cookie) : option Cookie :=
  match pending_flashes sess with
  | None => None
  | Some l => Some (setitem "_flashes" (SFlashes (l ++ [(category, message)])) sess)
  end.

(** What the view [logout] ends with. *)
Inductive logout_result : Type :=
| LogoutKeyError
| LogoutAttributeError
| LoggedOut (r : response) (sess : Cookie).

Section Site.

Variable check_password_hash : string -> string -> bool.
(** [url_for('index')]. *)
Variable url_for_index : string.

(** [LoginForm.getuser(name)]. *)
Definition getuser (name : string) : M (option User.t) :=
  d <- read_db ;;
  if contains_at name then
    match UserEmail_by_email name d with
    | None => raise AttributeError
    | Some useremail => ret (UserEmail_user useremail d)
    end
  else ret (User_by_username name d).

(** [LoginForm.validate_username]: the message of the [ValidationError]
    it raises, or [None] when it raises none. *)
Definition validate_username (data : string) : M (option string) :=
  existing <- getuser data ;;
  match existing with
  | None => ret (Some "User does not exist")
  | Some _ => ret None
  end.

(** [LoginForm.validate_password], for the username [username_data]: the
    message of the [ValidationError] it raises, or the user it stores in
    [self.user]. *)
Definition validate_password (username_data data : string) : M (string + User.t) :=
  user <- getuser username_data ;;
  match user with
  | None => ret (inl "Invalid password")
  | Some u =>
      ok <- check_password check_password_hash u data ;;
      if negb ok then ret (inl "Invalid password") else ret (inr u)
  end.

(** The view [logout] on the browser session [sess]: [del
    session['userid']] raises [KeyError] when nobody is logged in; then
    [session.permanent = False] and [flash(...)] write to the session, and
    the view redirects. *)
Definition logout (sess : Cookie) (request : Request.t) : logout_result :=
  match del "userid" sess with
  | None => LogoutKeyError
  | Some sess1 =>
      let sess2 := set_permanent false sess1 in
      match flash "You are now logged out" "info" sess2 with
      | None => LogoutAttributeError
      | Some sess3 =>
          if has_key "next" (Request.args request) then
            LoggedOut (redirect (get_default "next" "" (Request.args request)) 303) sess3
          else
            LoggedOut (redirect url_for_index 303) sess3
      end
  end.

End Site.

Module DemoText.

(** The one-character string [u'\xe9'] (e with acute accent), which is
    not ASCII. *)
Definition e_acute : string := String (ascii_of_nat 233) EmptyString.

End DemoText.

Module Demo22.

(** An identifier source whose values have the 22 characters of an
    unpadded URL-safe Base64 UUID. *)
Definition newid_at (n : nat) : string :=
  match n with
  | O => "AAAAAAAAAAAAAAAAAAAAAA"
  | S _ => "BBBBBBBBBBBBBBBBBBBBBB"
  end.

End Demo22.

(** * Properties *)

(** ** Python values *)

Lemma split_space_nonempty (s : string) : nonempty_list (split_space s) = true.
Proof.
  induction s as [|c rest IH]; simpl; [reflexivity|].
  destruct (Ascii.eqb c " "%char); [reflexivity|].
  destruct (split_space rest); reflexivity.
Qed.

Lemma list_eqb_eq (a b : list string) : list_eqb a b = true <-> a = b.
Proof.
  revert b; induction a as [|x a IH]; intros [|y b]; simpl; split;
    try congruence; try reflexivity.
  - intros H. apply andb_true_iff in H as [Hx Hl].
    apply String.eqb_eq in Hx. apply IH in Hl. congruence.
  - intros H. injection H as -> ->.
    rewrite String.eqb_refl. simpl. apply IH. reflexivity.
Qed.

Lemma nonblank_truthy (x : option string) (u : string) :
  nonblank x = Some u -> x = Some u /\ truthy x = true.
Proof.
  unfold nonblank. destruct (truthy x) eqn:E; [|discriminate].
  intros H. split; [exact H | reflexivity].
Qed.

Lemma nonblank_falsy (x : option string) : truthy x = false -> nonblank x = None.
Proof. unfold nonblank. intros ->. reflexivity. Qed.

Lemma truthy_nonblank (x : option string) :
  truthy x = true -> exists u, x = Some u /\ nonblank x = Some u.
Proof.
  unfold nonblank. intros E. rewrite E.
  destruct x as [u|]; [|discriminate]. exists u. split; reflexivity.
Qed.

Lemma opt_eqb_eq (x y : option string) : opt_eqb x y = true <-> x = y.
Proof.
  destruct x as [a|], y as [b|]; simpl; split; try congruence; try reflexivity.
  - intros H. apply String.eqb_eq in H. congruence.
  - intros H. injection H as ->. apply String.eqb_refl.
Qed.

Lemma opt_eqb_neq (x y : option string) : opt_eqb x y = false <-> x <> y.
Proof.
  split.
  - intros H E. apply opt_eqb_eq in E. congruence.
  - intros H. destruct (opt_eqb x y) eqn:E; [|reflexivity].
    apply opt_eqb_eq in E. contradiction.
Qed.

Lemma In_insert_by_slot (kv x : string * string) (l : list (string * string)) :
  In x (insert_by_slot kv l) <-> x = kv \/ In x l.
Proof.
  induction l as [|y l IH]; simpl.
  - intuition congruence.
  - destruct (dict_slot (fst kv) <? dict_slot (fst y)); simpl.
    + intuition congruence.
    + rewrite IH. intuition congruence.
Qed.

(** [items()] lists the entries of the dict, each once. *)
Lemma In_dict_items (x : string * string) (d : list (string * string)) :
  In x (dict_items d) <-> In x d.
Proof.
  unfold dict_items.
  assert (H : forall acc, In x (fold_left (fun acc kv => insert_by_slot kv acc) d acc)
                          <-> In x acc \/ In x d).
  { induction d as [|kv d IH]; intros acc; simpl.
    - intuition.
    - rewrite IH, In_insert_by_slot. intuition congruence. }
  rewrite H. simpl. intuition.
Qed.

(** The keys of the dicts of keyword arguments lie in five slots:
    [error_uri], [state], [code], [error_description], [error]. *)
Lemma keyword_slots :
  map dict_slot ["error_uri"; "state"; "code"; "error_description"; "error"]
  = [0; 2; 3; 4; 7].
Proof. vm_compute. reflexivity. Qed.

Section Properties.

Variable newid_at : nat -> string.
Variable urlsplit : string -> SplitResult.
Variable hostname : SplitResult -> option string.
Variable parse_qsl : string -> list (string * string).
Variable urlencode_ascii : list (string * string) -> string.
Variable urlunsplit : SplitResult -> string.
Variable check_password_hash : string -> string -> bool.
Variable url_for_login : string -> string.

#[local] Abbreviation auth_route :=
  (auth_route newid_at urlsplit hostname parse_qsl urlencode_ascii urlunsplit
              url_for_login).
#[local] Abbreviation authorize :=
  (authorize newid_at urlsplit hostname parse_qsl urlencode_ascii urlunsplit).
#[local] Abbreviation oauth_authorize :=
  (oauth_authorize newid_at urlsplit hostname parse_qsl urlencode_ascii urlunsplit).
#[local] Abbreviation oauth_authorize_from_2_1 :=
  (oauth_authorize_from_2_1 newid_at urlsplit parse_qsl urlencode_ascii urlunsplit).
#[local] Abbreviation redirect_url :=
  (redirect_url urlsplit parse_qsl urlencode_ascii urlunsplit).
#[local] Abbreviation cross_check_redirect_uri :=
  (cross_check_redirect_uri urlsplit hostname).
#[local] Abbreviation token_route := (token_route newid_at check_password_hash).
#[local] Abbreviation oauth_token := (oauth_token newid_at check_password_hash).
#[local] Abbreviation oauth_token_from_3_1 := (oauth_token_from_3_1 newid_at).
#[local] Abbreviation oauth_token_authorization_code :=
  (oauth_token_authorization_code newid_at).
#[local] Abbreviation oauth_make_token := (oauth_make_token newid_at).
#[local] Abbreviation made_token := (made_token newid_at).

#[local] Abbreviation redirect_to :=
  (redirect_to urlsplit parse_qsl urlencode_ascii urlunsplit).
#[local] Abbreviation oauth_auth_error :=
  (oauth_auth_error urlsplit parse_qsl urlencode_ascii urlunsplit).

(** ** The authorization flow *)

(** [oauth_auth_error] with a redirect URI answers with the redirect it
    builds, or fails as the construction of the URL does. *)
Lemma oauth_auth_error_some (uri : string) (state : option string) (error : string)
    (error_description error_uri : option string) (st : State) :
  oauth_auth_error (Some uri) state error error_description error_uri st
  = (redirect_to uri (auth_error_params state error error_description error_uri) 302,
     st).
Proof.
  unfold oauth_auth_error, redirect_to, bind, make_redirect_url, ret.
  destruct (redirect_url uri
              (auth_error_params state error error_description error_uri));
    reflexivity.
Qed.

(** A parameter value that is not ASCII makes the construction of the
    redirect fail. *)
Lemma redirect_to_non_ascii (uri : string) (params : list (string * string))
    (code : Z) (k v : string) :
  In (k, v) params -> is_ascii v = false ->
  redirect_to uri params code = Raised UnicodeEncodeError.
Proof.
  intros Hin Hv. unfold redirect_to, redirect_url, make_query_string.
  replace (forallb (fun kv : string * string => is_ascii (fst kv) && is_ascii (snd kv))
             (parse_qsl (query (urlsplit uri)) ++ dict_items params))
    with false; [reflexivity|].
  symmetry. apply not_true_is_false. intros Hall.
  rewrite forallb_forall in Hall.
  assert (Hkv : In (k, v) (parse_qsl (query (urlsplit uri)) ++ dict_items params))
    by (apply in_or_app; right; apply In_dict_items; exact Hin).
  apply Hall in Hkv. simpl in Hkv. rewrite Hv, andb_false_r in Hkv. discriminate.
Qed.

(** When every key and value of the query is ASCII, the redirect is
    built: its location is the URL with the parameters appended to its
    query, in the order in which the dict lists them. *)
Lemma redirect_to_ascii (uri : string) (params : list (string * string)) (code : Z) :
  forallb (fun kv => is_ascii (fst kv) && is_ascii (snd kv))
    (parse_qsl (query (urlsplit uri)) ++ dict_items params) = true ->
  redirect_to uri params code
  = Returned (redirect
      (urlunsplit {| scheme := scheme (urlsplit uri);
                     netloc := netloc (urlsplit uri);
                     path := path (urlsplit uri);
                     query := urlencode_ascii
                                (parse_qsl (query (urlsplit uri)) ++ dict_items params);
                     fragment := fragment (urlsplit uri) |}) code).
Proof.
  intros Hall. unfold redirect_to, redirect_url, make_query_string.
  rewrite Hall. reflexivity.
Qed.

(** The parameters of an error redirect carry the request's [state]. *)
Lemma state_in_auth_error_params (st error : string)
    (error_description error_uri : option string) :
  In ("state", st) (auth_error_params (Some st) error error_description error_uri).
Proof. unfold auth_error_params. simpl. right. left. reflexivity. Qed.

(** The route [/auth] runs the view for the user of the browser session,
    and sends a request without one to the login page. *)
Lemma auth_route_logged_in (sess : Session.t) (request : Request.t) (now : Z)
    (s : State) (user : User.t) :
  lookup_current_user sess (db s) = Some user ->
  auth_route sess request now s = authorize user request now s.
Proof.
  intros Huser. unfold auth_route, authorize. rewrite Huser. reflexivity.
Qed.

Lemma auth_route_anonymous (sess : Session.t) (request : Request.t) (now : Z)
    (s : State) :
  lookup_current_user sess (db s) = None ->
  fst (auth_route sess request now s)
    = Returned (redirect (url_for_login (Request.url request)) 302).
Proof.
  intros Huser. unfold auth_route. rewrite Huser. reflexivity.
Qed.

(** C8.  An authorization request without [client_id]: when it has no
    [redirect_uri] either, the flow answers with the 403 page and does
    not redirect; when it has one, the flow builds the redirect to it with
    [error=invalid_request] and answers with it, unless the URL cannot be
    built: a [state] that is not ASCII makes [urlencode] raise
    [UnicodeEncodeError], and the view gives no response. *)
Theorem missing_client_id (g_user : User.t) (request : Request.t) (now : Z)
    (s : State) :
  truthy (get "client_id" (Request.args request)) = false ->
  (truthy (get "redirect_uri" (Request.args request)) = false ->
     fst (authorize g_user request now s)
       = Returned (oauth_auth_403 "Missing client_id")
     /\ status (oauth_auth_403 "Missing client_id") = 403
     /\ is_redirect (oauth_auth_403 "Missing client_id") = false)
  /\ (forall uri, nonblank (get "redirect_uri" (Request.args request)) = Some uri ->
      fst (authorize g_user request now s)
        = redirect_to uri
            (auth_error_params (get "state" (Request.args request))
               "invalid_request" (Some "client_id missing") None) 302)
  /\ (forall uri state,
      nonblank (get "redirect_uri" (Request.args request)) = Some uri ->
      get "state" (Request.args request) = Some state ->
      is_ascii state = false ->
      fst (authorize g_user request now s) = Raised UnicodeEncodeError).
Proof.
  intros Hid.
  assert (Hredirect : forall uri,
            nonblank (get "redirect_uri" (Request.args request)) = Some uri ->
            fst (authorize g_user request now s)
              = redirect_to uri
                  (auth_error_params (get "state" (Request.args request))
                     "invalid_request" (Some "client_id missing") None) 302).
  { intros uri Hsome. apply nonblank_truthy in Hsome as [Heq Huri].
    unfold authorize, serve, oauth_authorize.
    rewrite Hid, Huri, Heq. cbn [negb].
    rewrite oauth_auth_error_some. reflexivity. }
  split; [|split].
  - intros Huri. unfold authorize, serve, oauth_authorize.
    rewrite Hid, Huri. simpl. auto.
  - exact Hredirect.
  - intros uri state Hsome Hstate Hascii.
    rewrite (Hredirect uri Hsome), Hstate.
    apply (redirect_to_non_ascii _ _ _ "state" state);
      [apply state_in_auth_error_params | exact Hascii].
Qed.

(** A request that names an active client and passes "Validation 1.4"
    goes on to "Validation 2.1" with the cross-checked redirect URI. *)
Lemma authorize_cross_checked (g_user : User.t) (request : Request.t) (now : Z)
    (s : State) (client : Client.t) (uri : string) :
  truthy (get "client_id" (Request.args request)) = true ->
  Client_by_key (get "client_id" (Request.args request)) (db s) = Some client ->
  Client.active client = true ->
  cross_check_redirect_uri client (get "redirect_uri" (Request.args request)) = Some uri ->
  authorize g_user request now s
    = serve (oauth_authorize_from_2_1 g_user request now client uri
               (get "response_type" (Request.args request))
               (split_space (get_default "scope" "" (Request.args request)))
               (get "state" (Request.args request))) s.
Proof.
  intros Hid Hclient Hactive Hcheck.
  unfold authorize, oauth_authorize, cross_check_redirect_uri in *.
  rewrite Hid. unfold serve, bind, read_db. simpl.
  rewrite Hclient, Hactive. simpl.
  destruct (nonblank (get "redirect_uri" (Request.args request))) as [u|].
  - destruct (negb (u =? Client.redirect_uri client)%string).
    + destruct (negb (opt_eqb (hostname (urlsplit u))
                              (hostname (urlsplit (Client.redirect_uri client))))).
      * discriminate.
      * injection Hcheck as ->. reflexivity.
    + injection Hcheck as ->. reflexivity.
  - injection Hcheck as ->. reflexivity.
Qed.

(** A request that names an active client and fails "Validation 1.4" is
    answered by a redirect to the URI it supplied. *)
Lemma authorize_cross_check_failed (g_user : User.t) (request : Request.t)
    (now : Z) (s : State) (client : Client.t) (uri : string) :
  truthy (get "client_id" (Request.args request)) = true ->
  Client_by_key (get "client_id" (Request.args request)) (db s) = Some client ->
  Client.active client = true ->
  nonblank (get "redirect_uri" (Request.args request)) = Some uri ->
  cross_check_redirect_uri client (get "redirect_uri" (Request.args request)) = None ->
  fst (authorize g_user request now s)
    = redirect_to uri
           (auth_error_params (get "state" (Request.args request)) "invalid_request"
              (Some "Redirect URI hostname doesn't match") None) 302.
Proof.
  intros Hid Hclient Hactive Huri Hcheck.
  unfold authorize, oauth_authorize, cross_check_redirect_uri in *.
  rewrite Hid. unfold serve, bind, read_db. cbn [negb db session entropy].
  rewrite Hclient, Hactive. cbn [negb]. rewrite Huri in *.
  destruct (negb (uri =? Client.redirect_uri client)%string); [|discriminate].
  destruct (negb (opt_eqb (hostname (urlsplit uri))
                          (hostname (urlsplit (Client.redirect_uri client)))));
    [|discriminate].
  rewrite oauth_auth_error_some. reflexivity.
Qed.

(** C6.  For a request that names an active client: a supplied
    [redirect_uri] that differs from the registered one and whose hostname
    differs from the registered hostname is rejected: the flow builds the
    redirect to it with [error=invalid_request] and answers with it,
    unless the URL cannot be built (a [state] that is not ASCII makes
    [urlencode] raise [UnicodeEncodeError], and the view gives no
    response).  One whose hostname is the same is accepted, validation
    going on with it; without a supplied [redirect_uri] validation goes on
    with the registered one. *)
Theorem redirect_uri_cross_check (g_user : User.t) (request : Request.t) (now : Z)
    (s : State) (client : Client.t) :
  truthy (get "client_id" (Request.args request)) = true ->
  Client_by_key (get "client_id" (Request.args request)) (db s) = Some client ->
  Client.active client = true ->
  (forall uri,
     nonblank (get "redirect_uri" (Request.args request)) = Some uri ->
     uri <> Client.redirect_uri client ->
     hostname (urlsplit uri) <> hostname (urlsplit (Client.redirect_uri client)) ->
     fst (authorize g_user request now s)
       = redirect_to uri
           (auth_error_params (get "state" (Request.args request)) "invalid_request"
              (Some "Redirect URI hostname doesn't match") None) 302)
  /\ (forall uri state,
     nonblank (get "redirect_uri" (Request.args request)) = Some uri ->
     uri <> Client.redirect_uri client ->
     hostname (urlsplit uri) <> hostname (urlsplit (Client.redirect_uri client)) ->
     get "state" (Request.args request) = Some state ->
     is_ascii state = false ->
     fst (authorize g_user request now s) = Raised UnicodeEncodeError)
  /\ (forall uri,
     nonblank (get "redirect_uri" (Request.args request)) = Some uri ->
     uri <> Client.redirect_uri client ->
     hostname (urlsplit uri) = hostname (urlsplit (Client.redirect_uri client)) ->
     authorize g_user request now s
       = serve (oauth_authorize_from_2_1 g_user request now client uri
                  (get "response_type" (Request.args request))
                  (split_space (get_default "scope" "" (Request.args request)))
                  (get "state" (Request.args request))) s)
  /\ (truthy (get "redirect_uri" (Request.args request)) = false ->
     authorize g_user request now s
       = serve (oauth_authorize_from_2_1 g_user request now client
                  (Client.redirect_uri client)
                  (get "response_type" (Request.args request))
                  (split_space (get_default "scope" "" (Request.args request)))
                  (get "state" (Request.args request))) s).
Proof.
  intros Hid Hclient Hactive.
  assert (Hrejected : forall uri,
     nonblank (get "redirect_uri" (Request.args request)) = Some uri ->
     uri <> Client.redirect_uri client ->
     hostname (urlsplit uri) <> hostname (urlsplit (Client.redirect_uri client)) ->
     fst (authorize g_user request now s)
       = redirect_to uri
           (auth_error_params (get "state" (Request.args request)) "invalid_request"
              (Some "Redirect URI hostname doesn't match") None) 302).
  { intros uri Huri Hneq Hhost.
    apply authorize_cross_check_failed with (client := client); auto.
    unfold cross_check_redirect_uri. rewrite Huri.
    apply String.eqb_neq in Hneq. rewrite Hneq. simpl.
    apply opt_eqb_neq in Hhost. rewrite Hhost. reflexivity. }
  split; [exact Hrejected|].
  split; [|split].
  - intros uri state Huri Hneq Hhost Hstate Hascii.
    rewrite (Hrejected uri Huri Hneq Hhost), Hstate.
    apply (redirect_to_non_ascii _ _ _ "state" state);
      [apply state_in_auth_error_params | exact Hascii].
  - intros uri Huri Hneq Hhost.
    apply authorize_cross_checked; auto.
    unfold cross_check_redirect_uri. rewrite Huri.
    apply String.eqb_neq in Hneq. rewrite Hneq. simpl.
    apply opt_eqb_eq in Hhost. rewrite Hhost. reflexivity.
  - intros Hnone.
    apply authorize_cross_checked; auto.
    unfold cross_check_redirect_uri.
    rewrite (nonblank_falsy _ Hnone). reflexivity.
Qed.

(** From "Validation 2.1" on, with [response_type=code]: every scope
    parameter whose split is not [[u'id']] is answered with
    [invalid_scope]; the test [not scope] never fires on a split. *)
Lemma from_2_1_scope_not_id (g_user : User.t) (request : Request.t) (now : Z)
    (s : State) (client : Client.t) (uri scope_param : string)
    (state : option string) :
  split_space scope_param <> ["id"] ->
  fst (serve (oauth_authorize_from_2_1 g_user request now client uri
                (Some "code") (split_space scope_param) state) s)
    = redirect_to uri (auth_error_params state "invalid_scope" None None) 302.
Proof.
  intros Hneq. unfold oauth_authorize_from_2_1.
  cbn [truthy negb opt_eqb String.eqb Ascii.eqb Bool.eqb].
  rewrite split_space_nonempty. cbn [negb].
  destruct (list_eqb (split_space scope_param) ["id"]) eqn:E.
  - apply list_eqb_eq in E. contradiction.
  - cbn [negb]. unfold serve. rewrite oauth_auth_error_some. reflexivity.
Qed.

(** C3.  What the code does with the scope of an authorization request
    that names an active client, passes the redirect URI cross-check and
    has [response_type=code]: a scope that is not, as a set, [{id}] is
    answered with [invalid_scope] (by the redirect that [oauth_auth_error]
    builds, [redirect_to]); and so is an absent or empty scope parameter,
    for which the specification asks [invalid_request]. *)
Theorem blank_scope_invalid_scope (g_user : User.t) (request : Request.t) (now : Z)
    (s : State) (client : Client.t) (uri : string) :
  truthy (get "client_id" (Request.args request)) = true ->
  Client_by_key (get "client_id" (Request.args request)) (db s) = Some client ->
  Client.active client = true ->
  cross_check_redirect_uri client (get "redirect_uri" (Request.args request)) = Some uri ->
  get "response_type" (Request.args request) = Some "code" ->
  (get_default "scope" "" (Request.args request) = "" ->
     fst (authorize g_user request now s)
       = redirect_to uri
              (auth_error_params (get "state" (Request.args request))
                 "invalid_scope" None None) 302)
  /\ (~ (forall x, In x (split_space (get_default "scope" "" (Request.args request)))
                   <-> x = "id") ->
     fst (authorize g_user request now s)
       = redirect_to uri
              (auth_error_params (get "state" (Request.args request))
                 "invalid_scope" None None) 302).
Proof.
  intros Hid Hclient Hactive Hcheck Hrt.
  rewrite (authorize_cross_checked _ _ _ _ _ _ Hid Hclient Hactive Hcheck), Hrt.
  split.
  - intros Hblank. apply from_2_1_scope_not_id. rewrite Hblank. discriminate.
  - intros Hset. apply from_2_1_scope_not_id. intros E. apply Hset.
    rewrite E. intros x. simpl. split.
    + intros [H|[]]. congruence.
    + intros ->. left. reflexivity.
Qed.

(** C4.  What the code does for a request that names a known, inactive
    client.  With a [redirect_uri] parameter the [unauthorized_client]
    error is sent by the redirect [oauth_auth_error] builds to it (also
    when it is the empty string; [redirect_to] fails where the URL cannot
    be built); without one, [oauth_auth_error] is called with [None] and
    the view is left by [AttributeError]: no direct response is
    produced. *)
Theorem inactive_client_without_redirect_uri (g_user : User.t) (request : Request.t)
    (now : Z) (s : State) (client : Client.t) :
  truthy (get "client_id" (Request.args request)) = true ->
  Client_by_key (get "client_id" (Request.args request)) (db s) = Some client ->
  Client.active client = false ->
  (get "redirect_uri" (Request.args request) = None ->
     fst (authorize g_user request now s) = Raised AttributeError)
  /\ (forall uri,
       get "redirect_uri" (Request.args request) = Some uri ->
       fst (authorize g_user request now s)
         = redirect_to uri
                (auth_error_params (get "state" (Request.args request))
                   "unauthorized_client" None None) 302).
Proof.
  intros Hid Hclient Hactive.
  unfold authorize, oauth_authorize.
  rewrite Hid. unfold serve, bind, read_db. cbn [negb db session entropy].
  rewrite Hclient, Hactive. cbn [negb].
  split.
  - intros ->. reflexivity.
  - intros uri ->. rewrite oauth_auth_error_some. reflexivity.
Qed.

(** ** The token exchange flow *)

(** A token request that passes "Validations 1" and "Validations 2" with
    [grant_type=authorization_code] goes on to "Validations 3". *)
Lemma token_route_authorization_code (request : Request.t) (now : Z) (s : State)
    (client : Client.t) :
  get "grant_type" (Request.form request) = Some "authorization_code" ->
  truthy (get "client_id" (Request.form request)) = true ->
  truthy (get "client_secret" (Request.form request)) = true ->
  Client_by_key (get "client_id" (Request.form request)) (db s) = Some client ->
  Client.active client = true ->
  get "client_secret" (Request.form request) = Some (Client.secret client) ->
  token_route request now s
    = serve (oauth_token_authorization_code now client
               (get "code" (Request.form request))
               (split_space (get_default "scope" "" (Request.form request)))
               (get "redirect_uri" (Request.form request))) s.
Proof.
  intros Hgt Hid Hsect Hclient Hactive Hsec.
  unfold token_route, oauth_token.
  rewrite Hid, Hsect, Hgt. simpl.
  unfold serve, bind, read_db. simpl.
  rewrite Hclient, Hactive, Hsec. simpl.
  rewrite String.eqb_refl. simpl. reflexivity.
Qed.

(** C7.  In the [authorization_code] exchange of a request that passes the
    client validations and whose code is found: a grant issued more than
    60 seconds before the redemption time is answered with
    [invalid_grant]; a grant issued less than 60 seconds before it passes
    the expiry test, and the exchange goes on to the scope validations. *)
Theorem auth_code_expiry (request : Request.t) (now : Z) (s : State)
    (client : Client.t) (authcode : AuthCode.t) :
  get "grant_type" (Request.form request) = Some "authorization_code" ->
  truthy (get "client_id" (Request.form request)) = true ->
  truthy (get "client_secret" (Request.form request)) = true ->
  Client_by_key (get "client_id" (Request.form request)) (db s) = Some client ->
  Client.active client = true ->
  get "client_secret" (Request.form request) = Some (Client.secret client) ->
  AuthCode_by_code_client (get "code" (Request.form request)) client (db s)
    = Some authcode ->
  (now - AuthCode.datetime authcode > seconds 60 ->
     fst (token_route request now s)
       = Returned (oauth_token_error "invalid_grant" (Some "Expired auth code") None))
  /\ (now - AuthCode.datetime authcode < seconds 60 ->
     token_route request now s
       = serve (oauth_token_from_3_1 now client authcode
                  (split_space (get_default "scope" "" (Request.form request)))
                  (get "redirect_uri" (Request.form request))) s).
Proof.
  intros Hgt Hid Hsect Hclient Hactive Hsec Hcode.
  rewrite (token_route_authorization_code _ _ _ _ Hgt Hid Hsect Hclient Hactive Hsec).
  unfold oauth_token_authorization_code, serve, bind, read_db. simpl.
  rewrite Hcode. unfold seconds, one_minute. split; intros Hage.
  - replace (AuthCode.datetime authcode <? now - 60 * 1000000) with true
      by (symmetry; apply Z.ltb_lt; lia).
    reflexivity.
  - replace (AuthCode.datetime authcode <? now - 60 * 1000000) with false
      by (symmetry; apply Z.ltb_ge; lia).
    reflexivity.
Qed.

(** C2.  What the code does in the [authorization_code] exchange once the
    grant is found and unexpired: a scope that is not a subset of the
    grant's scope makes the view execute [raise] on a response, and the
    view is left by [TypeError], no response being returned; a request
    without [scope] parameter is such a request whenever the empty string
    is not one of the grant's scopes. *)
Theorem scope_mismatch_raises (request : Request.t) (now : Z) (s : State)
    (client : Client.t) (authcode : AuthCode.t) :
  get "grant_type" (Request.form request) = Some "authorization_code" ->
  truthy (get "client_id" (Request.form request)) = true ->
  truthy (get "client_secret" (Request.form request)) = true ->
  Client_by_key (get "client_id" (Request.form request)) (db s) = Some client ->
  Client.active client = true ->
  get "client_secret" (Request.form request) = Some (Client.secret client) ->
  AuthCode_by_code_client (get "code" (Request.form request)) client (db s)
    = Some authcode ->
  now - AuthCode.datetime authcode <= seconds 60 ->
  (issubset (split_space (get_default "scope" "" (Request.form request)))
            (AuthCode.scope authcode) = false ->
     fst (token_route request now s) = Raised TypeError)
  /\ (get "scope" (Request.form request) = None ->
      mem "" (AuthCode.scope authcode) = false ->
      fst (token_route request now s) = Raised TypeError).
Proof.
  intros Hgt Hid Hsect Hclient Hactive Hsec Hcode Hage.
  assert (Hsub : issubset (split_space (get_default "scope" "" (Request.form request)))
                          (AuthCode.scope authcode) = false ->
                 fst (token_route request now s) = Raised TypeError).
  { intros Hsub.
    rewrite (token_route_authorization_code _ _ _ _ Hgt Hid Hsect Hclient Hactive Hsec).
    unfold oauth_token_authorization_code, serve, bind, read_db. simpl.
    rewrite Hcode.
    replace (AuthCode.datetime authcode <? now - one_minute) with false
      by (symmetry; apply Z.ltb_ge; unfold seconds, one_minute in *; lia).
    unfold oauth_token_from_3_1.
    rewrite split_space_nonempty, Hsub. reflexivity. }
  split; [exact Hsub|].
  intros Hnone Hmem. apply Hsub.
  unfold get_default. rewrite Hnone. simpl. rewrite Hmem. reflexivity.
Qed.

Lemma oauth_make_token_eq (user : option nat) (client : Client.t)
    (scope : list string) (st : State) :
  oauth_make_token user client scope st
    = (Returned (made_token user client scope (entropy st)),
       {| db := db st;
          session := session st ++ [NewAuthToken (made_token user client scope (entropy st))];
          entropy := S (S (S (S (entropy st)))) |}).
Proof. reflexivity. Qed.

Lemma oauth_token_success_made (now : Z) (user : option nat) (client : Client.t)
    (scope : list string) (n : nat) (st : State) :
  oauth_token_success now (made_token user client scope n) st
    = (Returned (jsonify [("access_token", JStr (newid_at n));
                          ("token_type", JNull);
                          ("scope", JStr (join_space (split_space (join_space scope))))]
                         200 [("Cache-Control", "no-store")]),
       {| db := fold_left (flush_one now) (session st) (db st);
          session := [];
          entropy := entropy st |}).
Proof. reflexivity. Qed.

(** Case analysis on the next test of a view. *)
Ltac next_test :=
  match goal with
  | |- context [if ?b then _ else _] => destruct b eqn:?
  | |- context [match ?o with Some _ => _ | None => _ end] => destruct o eqn:?
  end.

Ltac run_view :=
  cbv beta iota zeta
      delta [serve bind ret raise read_db
             oauth_token_error oauth_token_from_3_1
             oauth_token_authorization_code oauth_token_password
             check_password view_returned_none];
  rewrite ?oauth_make_token_eq, ?oauth_token_success_made;
  cbn [fst snd db session entropy authtokens authcodes clients users
       useremails fold_left flush_one List.app].

(** C10.  A token request either issues no token and returns no success
    response, or it inserts exactly one token, with [validity] 0,
    [token_type] [bearer] and, as [refresh_token], the second identifier
    drawn in the request, and returns a success response whose body has
    exactly the keys [access_token], [token_type] and [scope]. *)
Theorem issued_tokens_bearer_nonexpiring (request : Request.t) (now : Z) (s : State) :
  (authtokens (db (snd (token_route request now s))) = authtokens (db s)
   /\ forall params headers,
        fst (token_route request now s) <> Returned (jsonify params 200 headers))
  \/ (exists t params,
        authtokens (db (snd (token_route request now s)))
          = (authtokens (db s) ++ [t])%list
        /\ AuthToken.validity t = 0
        /\ AuthToken.token_type t = "bearer"
        /\ AuthToken.refresh_token t = newid_at (S (entropy s))
        /\ fst (token_route request now s)
             = Returned (jsonify params 200 [("Cache-Control", "no-store")])
        /\ map fst params = ["access_token"; "token_type"; "scope"]).
Proof.
  unfold token_route, oauth_token.
  repeat (run_view; next_test).
  all: run_view.
  all: try (left; split; [reflexivity | intros ? ?; discriminate]).
  all: right; eexists; eexists; repeat split; reflexivity.
Qed.

(** C9.  A [client_credentials] token request either inserts no token,
    or inserts exactly one, which has no user and is bound to the
    requesting client with the requested scope. *)
Theorem client_credentials_no_user (request : Request.t) (now : Z) (s : State) :
  get "grant_type" (Request.form request) = Some "client_credentials" ->
  authtokens (db (snd (token_route request now s))) = authtokens (db s)
  \/ (exists t client,
        authtokens (db (snd (token_route request now s)))
          = (authtokens (db s) ++ [t])%list
        /\ AuthToken.user_id t = None
        /\ Client_by_key (get "client_id" (Request.form request)) (db s) = Some client
        /\ AuthToken.client_id t = Client.id client
        /\ AuthToken._scope t
             = join_space (split_space (get_default "scope" "" (Request.form request)))).
Proof.
  intros Hgt.
  unfold token_route, oauth_token.
  rewrite Hgt. simpl opt_eqb.
  repeat (run_view; next_test).
  all: run_view.
  all: try (left; reflexivity).
  all: try discriminate.
  all: right; eexists; eexists; repeat split; reflexivity.
Qed.

(** A token request that passes "Validations 1" and "Validations 2" with
    [grant_type=password] goes on to "Validations 4". *)
Lemma token_route_password (request : Request.t) (now : Z) (s : State)
    (client : Client.t) :
  get "grant_type" (Request.form request) = Some "password" ->
  truthy (get "client_id" (Request.form request)) = true ->
  truthy (get "client_secret" (Request.form request)) = true ->
  Client_by_key (get "client_id" (Request.form request)) (db s) = Some client ->
  Client.active client = true ->
  Client.trusted client = true ->
  get "client_secret" (Request.form request) = Some (Client.secret client) ->
  token_route request now s
    = serve (oauth_token_password newid_at check_password_hash now client
               (split_space (get_default "scope" "" (Request.form request)))
               (get "username" (Request.form request))
               (get "password" (Request.form request))) s.
Proof.
  intros Hgt Hid Hsect Hclient Hactive Htrusted Hsec.
  unfold token_route, oauth_token.
  rewrite Hid, Hsect, Hgt. simpl.
  unfold serve, bind, read_db. simpl.
  rewrite Hclient, Hactive, Htrusted, Hsec. simpl.
  rewrite String.eqb_refl. simpl. reflexivity.
Qed.

(** C5.  What the code does with a [password] token request of an active,
    trusted client with the right secret, a username and a password, when
    the username resolves to no user: a username without [@] is answered
    with [invalid_client]; a username with [@] that is no registered
    email makes the view read [.user] of [None], and the view is left by
    [AttributeError]. *)
Theorem unknown_email_raises (request : Request.t) (now : Z) (s : State)
    (client : Client.t) (name pw : string) :
  get "grant_type" (Request.form request) = Some "password" ->
  truthy (get "client_id" (Request.form request)) = true ->
  truthy (get "client_secret" (Request.form request)) = true ->
  Client_by_key (get "client_id" (Request.form request)) (db s) = Some client ->
  Client.active client = true ->
  Client.trusted client = true ->
  get "client_secret" (Request.form request) = Some (Client.secret client) ->
  nonblank (get "username" (Request.form request)) = Some name ->
  nonblank (get "password" (Request.form request)) = Some pw ->
  (contains_at name = true -> UserEmail_by_email name (db s) = None ->
     fst (token_route request now s) = Raised AttributeError)
  /\ (contains_at name = false -> User_by_username name (db s) = None ->
      fst (token_route request now s)
        = Returned (oauth_token_error "invalid_client" (Some "No such user") None)).
Proof.
  intros Hgt Hid Hsect Hclient Hactive Htrusted Hsec Hname Hpw.
  rewrite (token_route_password _ _ _ _ Hgt Hid Hsect Hclient Hactive Htrusted Hsec).
  unfold oauth_token_password. rewrite Htrusted, Hname, Hpw.
  unfold serve, bind, read_db. simpl.
  split; intros Hat Hnone; rewrite Hat, Hnone; reflexivity.
Qed.

(** The state after one more token has been committed at [now]. *)
Lemma redeem_ok (request : Request.t) (now : Z) (s : State)
    (client : Client.t) (authcode : AuthCode.t) :
  get "grant_type" (Request.form request) = Some "authorization_code" ->
  truthy (get "client_id" (Request.form request)) = true ->
  truthy (get "client_secret" (Request.form request)) = true ->
  Client_by_key (get "client_id" (Request.form request)) (db s) = Some client ->
  Client.active client = true ->
  get "client_secret" (Request.form request) = Some (Client.secret client) ->
  AuthCode_by_code_client (get "code" (Request.form request)) client (db s)
    = Some authcode ->
  (AuthCode.datetime authcode <? now - one_minute) = false ->
  issubset (split_space (get_default "scope" "" (Request.form request)))
           (AuthCode.scope authcode) = true ->
  get "redirect_uri" (Request.form request) = Some (AuthCode.redirect_uri authcode) ->
  token_route request now s
    = (Returned (jsonify
         [("access_token", JStr (newid_at (entropy s)));
          ("token_type", JNull);
          ("scope", JStr (join_space (split_space (join_space (AuthCode.scope authcode)))))]
         200 [("Cache-Control", "no-store")]),
       {| db := {| users := users (db s);
                   useremails := useremails (db s);
                   clients := clients (db s);
                   authcodes := authcodes (db s);
                   authtokens :=
                     authtokens (db s)
                     ++ [AuthToken.insert now
                           (made_token (Some (AuthCode.user_id authcode)) client
                              (AuthCode.scope authcode) (entropy s))] |};
          session := [];
          entropy := S (S (S (S (entropy s)))) |}).
Proof.
  intros Hgt Hid Hsect Hclient Hactive Hsec Hcode Hfresh Hsub Huri.
  rewrite (token_route_authorization_code _ _ _ _ Hgt Hid Hsect Hclient Hactive Hsec).
  unfold oauth_token_authorization_code, oauth_token_from_3_1.
  unfold serve, bind, read_db. cbn [db session entropy].
  rewrite Hcode, Hfresh, split_space_nonempty, Hsub, Huri.
  cbn [negb opt_eqb]. rewrite String.eqb_refl. cbn [negb].
  rewrite oauth_make_token_eq, oauth_token_success_made. reflexivity.
Qed.

(** What a successful [authorization_code] exchange tells about the
    request and the state it was made in. *)
Lemma redeem_inv (request : Request.t) (now : Z) (s : State)
    (client : Client.t) (authcode : AuthCode.t) (params : list (string * json))
    (headers : list (string * string)) :
  get "grant_type" (Request.form request) = Some "authorization_code" ->
  Client_by_key (get "client_id" (Request.form request)) (db s) = Some client ->
  AuthCode_by_code_client (get "code" (Request.form request)) client (db s)
    = Some authcode ->
  fst (token_route request now s) = Returned (jsonify params 200 headers) ->
  truthy (get "client_id" (Request.form request)) = true
  /\ truthy (get "client_secret" (Request.form request)) = true
  /\ Client.active client = true
  /\ get "client_secret" (Request.form request) = Some (Client.secret client)
  /\ (AuthCode.datetime authcode <? now - one_minute) = false
  /\ issubset (split_space (get_default "scope" "" (Request.form request)))
              (AuthCode.scope authcode) = true
  /\ get "redirect_uri" (Request.form request) = Some (AuthCode.redirect_uri authcode)
  /\ headers = [("Cache-Control", "no-store")].
Proof.
  intros Hgt Hclient Hcode.
  unfold token_route, oauth_token.
  rewrite Hgt. simpl opt_eqb.
  destruct (truthy (get "client_id" (Request.form request))); [|discriminate].
  destruct (truthy (get "client_secret" (Request.form request))); [|discriminate].
  cbn [negb orb andb truthy].
  unfold serve, bind, read_db. cbn [db session entropy fst snd].
  rewrite Hclient.
  destruct (Client.active client); [|discriminate].
  destruct (opt_eqb (get "client_secret" (Request.form request))
                    (Some (Client.secret client))) eqn:Hsec; [|discriminate].
  cbn [negb].
  unfold oauth_token_authorization_code, oauth_token_from_3_1.
  unfold bind, read_db. cbn [db session entropy fst snd].
  rewrite Hcode.
  destruct (AuthCode.datetime authcode <? now - one_minute); [discriminate|].
  rewrite split_space_nonempty. cbn [negb].
  destruct (issubset _ (AuthCode.scope authcode)); [|discriminate].
  destruct (opt_eqb (get "redirect_uri" (Request.form request))
                    (Some (AuthCode.redirect_uri authcode))) eqn:Huri; [|discriminate].
  cbn [negb]. rewrite oauth_make_token_eq, oauth_token_success_made.
  cbn [fst]. intros Hok. injection Hok as _ Hheaders.
  apply opt_eqb_eq in Hsec, Huri. repeat split; auto.
Qed.

(** C1.  What the code does when a code is presented again.  After a
    successful [authorization_code] exchange the grant is as it was
    ([used] is neither set nor read), and the same request, made again
    while the grant is unexpired, succeeds again and inserts a second
    token: it is not answered with [invalid_grant]. *)
Theorem authorization_code_replay (request : Request.t) (now now' : Z) (s : State)
    (client : Client.t) (authcode : AuthCode.t) (params : list (string * json))
    (headers : list (string * string)) :
  get "grant_type" (Request.form request) = Some "authorization_code" ->
  Client_by_key (get "client_id" (Request.form request)) (db s) = Some client ->
  AuthCode_by_code_client (get "code" (Request.form request)) client (db s)
    = Some authcode ->
  fst (token_route request now s) = Returned (jsonify params 200 headers) ->
  now' - AuthCode.datetime authcode <= seconds 60 ->
  authcodes (db (snd (token_route request now s))) = authcodes (db s)
  /\ exists t1 t2 params',
      fst (token_route request now' (snd (token_route request now s)))
        = Returned (jsonify params' 200 headers)
      /\ authtokens (db (snd (token_route request now'
                                (snd (token_route request now s)))))
           = (authtokens (db s) ++ [t1; t2])%list
      /\ AuthToken.user_id t1 = Some (AuthCode.user_id authcode)
      /\ AuthToken.user_id t2 = Some (AuthCode.user_id authcode).
Proof.
  intros Hgt Hclient Hcode Hok Hage.
  destruct (redeem_inv _ _ _ _ _ _ _ Hgt Hclient Hcode Hok)
    as (Hid & Hsect & Hactive & Hsec & Hfresh & Hsub & Huri & ->).
  assert (Hfresh' : (AuthCode.datetime authcode <? now' - one_minute) = false)
    by (apply Z.ltb_ge; unfold seconds, one_minute in *; lia).
  rewrite (redeem_ok _ now _ _ _ Hgt Hid Hsect Hclient Hactive Hsec Hcode Hfresh Hsub Huri).
  cbn [snd db authcodes]. split; [reflexivity|].
  rewrite (redeem_ok _ now' _ client authcode Hgt Hid Hsect); auto.
  cbn [fst snd db authtokens entropy].
  eexists; eexists; eexists.
  split; [reflexivity|].
  split; [rewrite <- List.app_assoc; reflexivity|].
  split; reflexivity.
Qed.

End Properties.

(** ** The flows on the small instance *)

(** Without [client_id] and [redirect_uri]: the 403 page.  Without
    [client_id], with a [redirect_uri]: a redirect to it; and with a
    [state] that is not ASCII, no response. *)
Lemma missing_client_id_witness :
  fst (Demo.authorize Demo.alice (Demo.auth_get []) 0 Demo.s0)
    = Returned (oauth403_html "Missing client_id")
  /\ fst (Demo.authorize Demo.alice
            (Demo.auth_get [("redirect_uri", "https://client.example/cb")]) 0 Demo.s0)
     = Returned (redirect
         "https://client.example/cb?error_description=client_id missing&error=invalid_request"
         302)
  /\ fst (Demo.authorize Demo.alice
            (Demo.auth_get [("redirect_uri", "https://client.example/cb");
                            ("state", DemoText.e_acute)]) 0 Demo.s0)
     = Raised UnicodeEncodeError.
Proof.
  split; [|split].
  - apply (proj1 (missing_client_id Demo.newid_at Demo.urlsplit Demo.hostname
             Demo.parse_qsl Demo.urlencode_ascii Demo.urlunsplit
             Demo.alice (Demo.auth_get []) 0 Demo.s0 eq_refl));
      reflexivity.
  - apply (proj1 (proj2 (missing_client_id Demo.newid_at Demo.urlsplit Demo.hostname
             Demo.parse_qsl Demo.urlencode_ascii Demo.urlunsplit
             Demo.alice (Demo.auth_get [("redirect_uri", "https://client.example/cb")])
             0 Demo.s0 eq_refl)) "https://client.example/cb");
      reflexivity.
  - apply (proj2 (proj2 (missing_client_id Demo.newid_at Demo.urlsplit Demo.hostname
             Demo.parse_qsl Demo.urlencode_ascii Demo.urlunsplit
             Demo.alice
             (Demo.auth_get [("redirect_uri", "https://client.example/cb");
                             ("state", DemoText.e_acute)])
             0 Demo.s0 eq_refl)) "https://client.example/cb" DemoText.e_acute);
      reflexivity.
Defined.

(** [app] is registered with [https://app.example/cb]: another host is
    rejected (with a [state] that is not ASCII, by an exception), another
    query on the same host goes on to the consent page, and so does a
    request without [redirect_uri]. *)
Lemma redirect_uri_cross_check_witness :
  fst (Demo.authorize Demo.alice
         (Demo.auth_get [("client_id", "app-key"); ("response_type", "code");
                         ("scope", "id");
                         ("redirect_uri", "https://evil.example/cb")]) 0 Demo.s0)
    = Returned (redirect
        "https://evil.example/cb?error_description=Redirect URI hostname doesn't match&error=invalid_request"
        302)
  /\ fst (Demo.authorize Demo.alice
            (Demo.auth_get [("client_id", "app-key"); ("response_type", "code");
                            ("scope", "id");
                            ("redirect_uri", "https://evil.example/cb");
                            ("state", DemoText.e_acute)]) 0 Demo.s0)
     = Raised UnicodeEncodeError
  /\ fst (Demo.authorize Demo.alice
            (Demo.auth_get [("client_id", "app-key"); ("response_type", "code");
                            ("scope", "id");
                            ("redirect_uri", "https://app.example/cb?x=1")]) 0 Demo.s0)
     = Returned (authorize_html Demo.app "https://app.example/cb?x=1" ["id"] None)
  /\ fst (Demo.authorize Demo.alice
            (Demo.auth_get [("client_id", "app-key"); ("response_type", "code");
                            ("scope", "id")]) 0 Demo.s0)
     = Returned (authorize_html Demo.app "https://app.example/cb" ["id"] None).
Proof.
  split; [|split; [|split]].
  - apply (proj1 (redirect_uri_cross_check Demo.newid_at Demo.urlsplit Demo.hostname
             Demo.parse_qsl Demo.urlencode_ascii Demo.urlunsplit Demo.alice
             (Demo.auth_get [("client_id", "app-key"); ("response_type", "code");
                             ("scope", "id");
                             ("redirect_uri", "https://evil.example/cb")])
             0 Demo.s0 Demo.app eq_refl eq_refl eq_refl) "https://evil.example/cb");
      try reflexivity; discriminate.
  - apply (proj1 (proj2 (redirect_uri_cross_check Demo.newid_at Demo.urlsplit
             Demo.hostname Demo.parse_qsl Demo.urlencode_ascii Demo.urlunsplit
             Demo.alice
             (Demo.auth_get [("client_id", "app-key"); ("response_type", "code");
                             ("scope", "id");
                             ("redirect_uri", "https://evil.example/cb");
                             ("state", DemoText.e_acute)])
             0 Demo.s0 Demo.app eq_refl eq_refl eq_refl))
             "https://evil.example/cb" DemoText.e_acute);
      try reflexivity; discriminate.
  - unfold Demo.authorize.
    rewrite (proj1 (proj2 (proj2 (redirect_uri_cross_check Demo.newid_at Demo.urlsplit
               Demo.hostname Demo.parse_qsl Demo.urlencode_ascii Demo.urlunsplit
               Demo.alice
               (Demo.auth_get [("client_id", "app-key"); ("response_type", "code");
                               ("scope", "id");
                               ("redirect_uri", "https://app.example/cb?x=1")])
               0 Demo.s0 Demo.app eq_refl eq_refl eq_refl)))
             "https://app.example/cb?x=1");
      try reflexivity; discriminate.
  - unfold Demo.authorize.
    rewrite (proj2 (proj2 (proj2 (redirect_uri_cross_check Demo.newid_at Demo.urlsplit
               Demo.hostname Demo.parse_qsl Demo.urlencode_ascii Demo.urlunsplit
               Demo.alice
               (Demo.auth_get [("client_id", "app-key"); ("response_type", "code");
                               ("scope", "id")])
               0 Demo.s0 Demo.app eq_refl eq_refl eq_refl))));
      reflexivity.
Defined.

(** A request of [app] without [scope], and one with [scope=email]: both
    are answered with [invalid_scope]. *)
Lemma blank_scope_invalid_scope_witness :
  fst (Demo.authorize Demo.alice
         (Demo.auth_get [("client_id", "app-key"); ("response_type", "code")])
         0 Demo.s0)
    = Returned (redirect "https://app.example/cb?error=invalid_scope" 302)
  /\ fst (Demo.authorize Demo.alice
            (Demo.auth_get [("client_id", "app-key"); ("response_type", "code");
                            ("scope", "email")])
            0 Demo.s0)
     = Returned (redirect "https://app.example/cb?error=invalid_scope" 302).
Proof.
  split.
  - apply (proj1 (blank_scope_invalid_scope Demo.newid_at Demo.urlsplit Demo.hostname
             Demo.parse_qsl Demo.urlencode_ascii Demo.urlunsplit Demo.alice
             (Demo.auth_get [("client_id", "app-key"); ("response_type", "code")])
             0 Demo.s0 Demo.app "https://app.example/cb"
             eq_refl eq_refl eq_refl eq_refl eq_refl));
      reflexivity.
  - apply (proj2 (blank_scope_invalid_scope Demo.newid_at Demo.urlsplit Demo.hostname
             Demo.parse_qsl Demo.urlencode_ascii Demo.urlunsplit Demo.alice
             (Demo.auth_get [("client_id", "app-key"); ("response_type", "code");
                             ("scope", "email")])
             0 Demo.s0 Demo.app "https://app.example/cb"
             eq_refl eq_refl eq_refl eq_refl eq_refl)).
    intros H. destruct (H "email") as [Hin _].
    assert (E : "email" = "id") by (apply Hin; left; reflexivity).
    discriminate E.
Defined.

(** A request of the deactivated client [old] without [redirect_uri]
    leaves the view by [AttributeError]; with an empty [redirect_uri] it
    is answered by a redirect to a relative URL. *)
Lemma inactive_client_without_redirect_uri_witness :
  fst (Demo.authorize Demo.alice
         (Demo.auth_get [("client_id", "old-key"); ("response_type", "code");
                         ("scope", "id")]) 0 Demo.s0)
    = Raised AttributeError
  /\ fst (Demo.authorize Demo.alice
            (Demo.auth_get [("client_id", "old-key"); ("response_type", "code");
                            ("scope", "id"); ("redirect_uri", "")]) 0 Demo.s0)
     = Returned (redirect "?error=unauthorized_client" 302).
Proof.
  split.
  - apply (proj1 (inactive_client_without_redirect_uri Demo.newid_at Demo.urlsplit
             Demo.hostname Demo.parse_qsl Demo.urlencode_ascii Demo.urlunsplit
             Demo.alice
             (Demo.auth_get [("client_id", "old-key"); ("response_type", "code");
                             ("scope", "id")]) 0 Demo.s0 Demo.old
             eq_refl eq_refl eq_refl));
      reflexivity.
  - apply (proj2 (inactive_client_without_redirect_uri Demo.newid_at Demo.urlsplit
             Demo.hostname Demo.parse_qsl Demo.urlencode_ascii Demo.urlunsplit
             Demo.alice
             (Demo.auth_get [("client_id", "old-key"); ("response_type", "code");
                             ("scope", "id"); ("redirect_uri", "")]) 0 Demo.s0 Demo.old
             eq_refl eq_refl eq_refl) "");
      reflexivity.
Defined.

(** The grant was issued at second 1000.  Redeemed at second 1061 it has
    expired; redeemed at second 1059 it passes the expiry test, and the
    exchange succeeds. *)
Lemma auth_code_expiry_witness :
  fst (Demo.token_route (Demo.redeem [("scope", "id")]) (seconds 1061) Demo.s0)
    = Returned (jsonify [("error", JStr "invalid_grant");
                         ("error_description", JStr "Expired auth code")] 400 [])
  /\ fst (Demo.token_route (Demo.redeem [("scope", "id")]) (seconds 1059) Demo.s0)
     = Returned (jsonify [("access_token", JStr "r.");
                          ("token_type", JNull);
                          ("scope", JStr "id")] 200 [("Cache-Control", "no-store")]).
Proof.
  split.
  - apply (proj1 (auth_code_expiry Demo.newid_at Demo.check_password_hash
             (Demo.redeem [("scope", "id")]) (seconds 1061) Demo.s0 Demo.app Demo.grant
             eq_refl eq_refl eq_refl eq_refl eq_refl eq_refl eq_refl)).
    reflexivity.
  - unfold Demo.token_route.
    rewrite (proj2 (auth_code_expiry Demo.newid_at Demo.check_password_hash
               (Demo.redeem [("scope", "id")]) (seconds 1059) Demo.s0 Demo.app Demo.grant
               eq_refl eq_refl eq_refl eq_refl eq_refl eq_refl eq_refl));
      reflexivity.
Defined.

(** Redemption of the grant, of scope [id], with [scope=email] and without
    [scope]: the view is left by [TypeError]. *)
Lemma scope_mismatch_raises_witness :
  fst (Demo.token_route (Demo.redeem [("scope", "email")]) (seconds 1010) Demo.s0)
    = Raised TypeError
  /\ fst (Demo.token_route (Demo.redeem []) (seconds 1010) Demo.s0)
     = Raised TypeError.
Proof.
  assert (Hage : seconds 1010 - AuthCode.datetime Demo.grant <= seconds 60)
    by (unfold seconds; simpl; lia).
  split.
  - apply (proj1 (scope_mismatch_raises Demo.newid_at Demo.check_password_hash
             (Demo.redeem [("scope", "email")]) (seconds 1010) Demo.s0
             Demo.app Demo.grant
             eq_refl eq_refl eq_refl eq_refl eq_refl eq_refl eq_refl Hage)).
    reflexivity.
  - apply (proj2 (scope_mismatch_raises Demo.newid_at Demo.check_password_hash
             (Demo.redeem []) (seconds 1010) Demo.s0 Demo.app Demo.grant
             eq_refl eq_refl eq_refl eq_refl eq_refl eq_refl eq_refl Hage));
      reflexivity.
Defined.

(** A [client_credentials] request of [sso]. *)
Lemma client_credentials_no_user_witness :
  map AuthToken.user_id
      (authtokens (db (snd (Demo.token_route
         (Demo.token_post [("grant_type", "client_credentials");
                           ("client_id", "sso-key"); ("client_secret", "sso-secret");
                           ("scope", "id")])
         (seconds 1010) Demo.s0))))
    = [None].
Proof.
  destruct (client_credentials_no_user Demo.newid_at Demo.check_password_hash
              (Demo.token_post [("grant_type", "client_credentials");
                                ("client_id", "sso-key"); ("client_secret", "sso-secret");
                                ("scope", "id")])
              (seconds 1010) Demo.s0 eq_refl)
    as [Hsame | (t & client & Hnew & Hnone & _)].
  - discriminate Hsame.
  - unfold Demo.token_route. rewrite Hnew. simpl. rewrite Hnone. reflexivity.
Defined.

(** A [password] request of [sso] for [bob@example.com], who has no
    account, leaves the view by [AttributeError]; for [bob] it is answered
    with [invalid_client]. *)
Lemma unknown_email_raises_witness :
  fst (Demo.token_route
         (Demo.token_post [("grant_type", "password"); ("client_id", "sso-key");
                           ("client_secret", "sso-secret");
                           ("username", "bob@example.com"); ("password", "secret")])
         (seconds 1010) Demo.s0)
    = Raised AttributeError
  /\ fst (Demo.token_route
            (Demo.token_post [("grant_type", "password"); ("client_id", "sso-key");
                              ("client_secret", "sso-secret");
                              ("username", "bob"); ("password", "secret")])
            (seconds 1010) Demo.s0)
     = Returned (jsonify [("error", JStr "invalid_client");
                          ("error_description", JStr "No such user")] 400 []).
Proof.
  split.
  - apply (proj1 (unknown_email_raises Demo.newid_at Demo.check_password_hash
             (Demo.token_post [("grant_type", "password"); ("client_id", "sso-key");
                               ("client_secret", "sso-secret");
                               ("username", "bob@example.com"); ("password", "secret")])
             (seconds 1010) Demo.s0 Demo.sso "bob@example.com" "secret"
             eq_refl eq_refl eq_refl eq_refl eq_refl eq_refl eq_refl eq_refl eq_refl));
      reflexivity.
  - apply (proj2 (unknown_email_raises Demo.newid_at Demo.check_password_hash
             (Demo.token_post [("grant_type", "password"); ("client_id", "sso-key");
                               ("client_secret", "sso-secret");
                               ("username", "bob"); ("password", "secret")])
             (seconds 1010) Demo.s0 Demo.sso "bob" "secret"
             eq_refl eq_refl eq_refl eq_refl eq_refl eq_refl eq_refl eq_refl eq_refl));
      reflexivity.
Defined.

(** The grant redeemed at second 1010 and again at second 1020: both
    exchanges succeed, and two tokens for the grant's user are stored. *)
Lemma authorization_code_replay_witness :
  fst (Demo.token_route (Demo.redeem [("scope", "id")]) (seconds 1020)
         (snd (Demo.token_route (Demo.redeem [("scope", "id")]) (seconds 1010) Demo.s0)))
    = Returned (jsonify [("access_token", JStr "rxxxx.");
                         ("token_type", JNull);
                         ("scope", JStr "id")] 200 [("Cache-Control", "no-store")])
  /\ map AuthToken.user_id
       (authtokens (db (snd (Demo.token_route (Demo.redeem [("scope", "id")]) (seconds 1020)
          (snd (Demo.token_route (Demo.redeem [("scope", "id")]) (seconds 1010) Demo.s0))))))
     = [Some 1%nat; Some 1%nat].
Proof.
  assert (Hage : seconds 1020 - AuthCode.datetime Demo.grant <= seconds 60)
    by (unfold seconds; simpl; lia).
  destruct (authorization_code_replay Demo.newid_at Demo.check_password_hash
              (Demo.redeem [("scope", "id")]) (seconds 1010) (seconds 1020) Demo.s0
              Demo.app Demo.grant
              [("access_token", JStr "r."); ("token_type", JNull); ("scope", JStr "id")]
              [("Cache-Control", "no-store")]
              eq_refl eq_refl eq_refl eq_refl Hage)
    as (_ & t1 & t2 & params' & Hok & Htokens & Hu1 & Hu2).
  split.
  - reflexivity.
  - unfold Demo.token_route. rewrite Htokens. simpl. rewrite Hu1, Hu2. reflexivity.
Defined.

(** * Further properties *)

(** ** The scope column *)

Lemma concat_space_cons (c : ascii) (w : string) (ws : list string) :
  join_space (String c w :: ws) = String c (join_space (w :: ws)).
Proof. destruct ws; reflexivity. Qed.

Lemma split_space_cons_other (c : ascii) (rest : string) :
  Ascii.eqb c " "%char = false ->
  exists w ws, split_space rest = w :: ws
               /\ split_space (String c rest) = String c w :: ws.
Proof.
  intros Hc. simpl. rewrite Hc.
  pose proof (split_space_nonempty rest) as Hne.
  destruct (split_space rest) as [|w ws]; [discriminate|].
  exists w, ws. split; reflexivity.
Qed.

Lemma join_split_space (s : string) : join_space (split_space s) = s.
Proof.
  induction s as [|c rest IH]; [reflexivity|].
  destruct (Ascii.eqb c " "%char) eqn:Hc.
  - apply Ascii.eqb_eq in Hc. subst c. simpl.
    pose proof (split_space_nonempty rest) as Hne.
    destruct (split_space rest) as [|w ws]; [discriminate|].
    unfold join_space in *. simpl in *. rewrite IH. reflexivity.
  - destruct (split_space_cons_other c rest Hc) as (w & ws & Hrest & Hs).
    rewrite Hs, concat_space_cons. rewrite <- Hrest, IH. reflexivity.
Qed.

Lemma split_space_word (x : string) :
  contains_space x = false -> split_space x = [x].
Proof.
  induction x as [|c rest IH]; [reflexivity|].
  simpl. intros H. apply orb_false_iff in H as [Hc Hrest].
  rewrite Hc, (IH Hrest). reflexivity.
Qed.

Lemma split_space_word_app (x y : string) :
  contains_space x = false ->
  split_space (x ++ String " "%char y) = x :: split_space y.
Proof.
  induction x as [|c rest IH]; [reflexivity|].
  simpl. intros H. apply orb_false_iff in H as [Hc Hrest].
  rewrite Hc, (IH Hrest). reflexivity.
Qed.

Lemma split_join_space (l : list string) :
  l <> [] ->
  forallb (fun x => negb (contains_space x)) l = true ->
  split_space (join_space l) = l.
Proof.
  induction l as [|x l IH]; [congruence|].
  intros _ Hall. simpl in Hall. apply andb_true_iff in Hall as [Hx Hl].
  apply negb_true_iff in Hx.
  destruct l as [|y l'].
  - simpl. apply split_space_word. exact Hx.
  - change (join_space (x :: y :: l'))
      with (x ++ String " "%char (join_space (y :: l')))%string.
    rewrite (split_space_word_app _ _ Hx), IH; [reflexivity|discriminate|exact Hl].
Qed.

(** X1.  The [scope] property of [AuthCode] and [AuthToken] stores a list
    joined by single spaces and reads it back by splitting.  Reading what
    the column holds and storing it again gives the column back; storing a
    non-empty list of scopes that contain no space and reading it gives
    the list back; the empty list is read back as the list of the empty
    string. *)
Theorem scope_column_round_trip :
  (forall column, join_space (split_space column) = column)
  /\ (forall scope,
        scope <> [] ->
        forallb (fun x => negb (contains_space x)) scope = true ->
        split_space (join_space scope) = scope)
  /\ split_space (join_space []) = [""].
Proof.
  split; [exact join_split_space|].
  split; [exact split_join_space|reflexivity].
Qed.

Lemma scope_column_round_trip_witness :
  split_space (join_space ["id"; "email"]) = ["id"; "email"].
Proof.
  apply (proj1 (proj2 scope_column_round_trip)); [discriminate | reflexivity].
Defined.

Section MoreProperties.

Variable newid_at : nat -> string.
Variable urlsplit : string -> SplitResult.
Variable hostname : SplitResult -> option string.
Variable parse_qsl : string -> list (string * string).
Variable urlencode_ascii : list (string * string) -> string.
Variable urlunsplit : SplitResult -> string.
Variable check_password_hash : string -> string -> bool.
Variable url_for_login : string -> string.
Variable url_for_index : string.

#[local] Abbreviation auth_route :=
  (auth_route newid_at urlsplit hostname parse_qsl urlencode_ascii urlunsplit
              url_for_login).
#[local] Abbreviation authorize :=
  (authorize newid_at urlsplit hostname parse_qsl urlencode_ascii urlunsplit).
#[local] Abbreviation oauth_authorize :=
  (oauth_authorize newid_at urlsplit hostname parse_qsl urlencode_ascii urlunsplit).
#[local] Abbreviation oauth_authorize_from_2_1 :=
  (oauth_authorize_from_2_1 newid_at urlsplit parse_qsl urlencode_ascii urlunsplit).
#[local] Abbreviation oauth_auth_error :=
  (oauth_auth_error urlsplit parse_qsl urlencode_ascii urlunsplit).
#[local] Abbreviation oauth_auth_success :=
  (oauth_auth_success urlsplit parse_qsl urlencode_ascii urlunsplit).
#[local] Abbreviation make_redirect_url :=
  (make_redirect_url urlsplit parse_qsl urlencode_ascii urlunsplit).
#[local] Abbreviation oauth_make_auth_code := (oauth_make_auth_code newid_at).
#[local] Abbreviation redirect_url :=
  (redirect_url urlsplit parse_qsl urlencode_ascii urlunsplit).
#[local] Abbreviation redirect_to :=
  (redirect_to urlsplit parse_qsl urlencode_ascii urlunsplit).
#[local] Abbreviation cross_check_redirect_uri :=
  (cross_check_redirect_uri urlsplit hostname).
#[local] Abbreviation token_route := (token_route newid_at check_password_hash).
#[local] Abbreviation oauth_token := (oauth_token newid_at check_password_hash).
#[local] Abbreviation oauth_token_from_3_1 := (oauth_token_from_3_1 newid_at).
#[local] Abbreviation oauth_token_authorization_code :=
  (oauth_token_authorization_code newid_at).
#[local] Abbreviation oauth_token_password :=
  (oauth_token_password newid_at check_password_hash).
#[local] Abbreviation oauth_make_token := (oauth_make_token newid_at).
#[local] Abbreviation made_token := (made_token newid_at).
#[local] Abbreviation check_password := (check_password check_password_hash).
#[local] Abbreviation validate_password := (validate_password check_password_hash).
#[local] Abbreviation logout := (logout url_for_index).

(** Case analysis on the tests of the token view, in the order in which
    they are made. *)
Ltac token_test :=
  match goal with
  | |- context [if ?b then _ else _] => destruct b eqn:?
  | |- context [match ?o with Some _ => _ | None => _ end] => destruct o eqn:?
  end.

Ltac token_step :=
  cbv beta iota zeta
      delta [serve bind ret raise read_db
             oauth_token_error oauth_token_from_3_1
             oauth_token_authorization_code oauth_token_password
             check_password view_returned_none];
  rewrite ?oauth_make_token_eq, ?oauth_token_success_made;
  cbn [fst snd db session entropy authtokens authcodes clients users
       useremails fold_left flush_one List.app].

Ltac token_cases :=
  unfold token_route, oauth_token;
  repeat (token_step; token_test);
  token_step.

(** Boolean facts about a request, as equations. *)
Ltac bool_facts :=
  repeat match goal with
         | H : negb _ = false |- _ => apply negb_false_iff in H
         | H : negb _ = true |- _ => apply negb_true_iff in H
         | H : (_ || _)%bool = false |- _ => apply orb_false_iff in H; destruct H
         | H : (_ && _)%bool = true |- _ => apply andb_true_iff in H; destruct H
         | H : opt_eqb _ _ = true |- _ => apply opt_eqb_eq in H
         | H : list_eqb _ _ = true |- _ => apply list_eqb_eq in H
         end.

(** ** The token exchange flow *)

(** X2.  A token request changes nothing in the database but the table
    of tokens: users, e-mail addresses, clients and authorization codes
    are as before, whatever the request and its outcome. *)
Theorem token_route_frame (request : Request.t) (now : Z) (s : State) :
  users (db (snd (token_route request now s))) = users (db s)
  /\ useremails (db (snd (token_route request now s))) = useremails (db s)
  /\ clients (db (snd (token_route request now s))) = clients (db s)
  /\ authcodes (db (snd (token_route request now s))) = authcodes (db s).
Proof.
  token_cases; repeat split; reflexivity.
Qed.

(** X3.  The token view never answers with the error [invalid_scope],
    although it has a branch that returns it ("Scope is blank"), and it
    never ends without a response ([ValueError]). *)
Theorem token_route_never_invalid_scope (request : Request.t) (now : Z) (s : State) :
  fst (token_route request now s) <> Raised ValueError
  /\ forall params code headers,
       fst (token_route request now s) = Returned (jsonify params code headers) ->
       ~ In ("error", JStr "invalid_scope") params.
Proof.
  assert (Hne := split_space_nonempty
                   (get_default "scope" "" (Request.form request))).
  token_cases.
  all: split; [discriminate|].
  all: intros params code headers Hr; try discriminate Hr.
  all: try (rewrite Hne in *; discriminate).
  all: injection Hr as <- <- <-.
  all: simpl; intuition discriminate.
Qed.

(** X4.  "Validations 1" come before everything else: a token request
    that lacks [grant_type], [client_id] or [client_secret] is answered
    with [invalid_request], and one that has all three but another grant
    type than the three supported ones ([refresh_token], for one) with
    [unsupported_grant_type], whoever the client is; nothing is stored. *)
Theorem token_required_parameters (request : Request.t) (now : Z) (s : State) :
  (truthy (get "grant_type" (Request.form request)) = false
   \/ truthy (get "client_id" (Request.form request)) = false
   \/ truthy (get "client_secret" (Request.form request)) = false ->
   token_route request now s
     = (Returned (oauth_token_error "invalid_request" None None),
        {| db := db s; session := []; entropy := entropy s |}))
  /\ (forall grant_type,
       get "grant_type" (Request.form request) = Some grant_type ->
       grant_type <> "" ->
       truthy (get "client_id" (Request.form request)) = true ->
       truthy (get "client_secret" (Request.form request)) = true ->
       grant_type <> "authorization_code" ->
       grant_type <> "client_credentials" ->
       grant_type <> "password" ->
       token_route request now s
         = (Returned (oauth_token_error "unsupported_grant_type" None None),
            {| db := db s; session := []; entropy := entropy s |})).
Proof.
  split.
  - intros H. unfold token_route, oauth_token.
    replace (negb (truthy (get "grant_type" (Request.form request)))
             || negb (truthy (get "client_id" (Request.form request)))
             || negb (truthy (get "client_secret" (Request.form request))))
      with true; [reflexivity|].
    destruct H as [-> | [-> | ->]]; simpl;
      rewrite ?orb_true_r; reflexivity.
  - intros grant_type Hgt Hne Hid Hsec H1 H2 H3.
    unfold token_route, oauth_token. rewrite Hgt, Hid, Hsec.
    assert (Ht : truthy (Some grant_type) = true)
      by (destruct grant_type; [congruence | reflexivity]).
    rewrite Ht. simpl.
    apply String.eqb_neq in H1, H2, H3. rewrite H1, H2, H3. reflexivity.
Qed.

(** X5.  "Validations 2": a token request with the three parameters and a
    supported grant type is answered with [invalid_client] when no client
    has the key [client_id], when the client is inactive, and when
    [client_secret] is not the client's secret; nothing is stored. *)
Theorem token_client_authentication (request : Request.t) (now : Z) (s : State)
    (grant_type : string) :
  get "grant_type" (Request.form request) = Some grant_type ->
  grant_type = "authorization_code" \/ grant_type = "client_credentials"
    \/ grant_type = "password" ->
  truthy (get "client_id" (Request.form request)) = true ->
  truthy (get "client_secret" (Request.form request)) = true ->
  (Client_by_key (get "client_id" (Request.form request)) (db s) = None ->
     token_route request now s
       = (Returned (oauth_token_error "invalid_client" (Some "Unknown client_id") None),
          {| db := db s; session := []; entropy := entropy s |}))
  /\ (forall client,
       Client_by_key (get "client_id" (Request.form request)) (db s) = Some client ->
       Client.active client = false ->
       token_route request now s
         = (Returned (oauth_token_error "invalid_client" (Some "Unknown client_id") None),
            {| db := db s; session := []; entropy := entropy s |}))
  /\ (forall client,
       Client_by_key (get "client_id" (Request.form request)) (db s) = Some client ->
       Client.active client = true ->
       get "client_secret" (Request.form request) <> Some (Client.secret client) ->
       token_route request now s
         = (Returned (oauth_token_error "invalid_client" (Some "client_secret mismatch") None),
            {| db := db s; session := []; entropy := entropy s |})).
Proof.
  intros Hgt Hsupported Hid Hsec.
  unfold token_route, oauth_token. rewrite Hgt, Hid, Hsec.
  assert (Ht : truthy (Some grant_type) = true)
    by (destruct Hsupported as [-> | [-> | ->]]; reflexivity).
  rewrite Ht.
  assert (Hin : negb (opt_eqb (Some grant_type) (Some "authorization_code")
                      || opt_eqb (Some grant_type) (Some "client_credentials")
                      || opt_eqb (Some grant_type) (Some "password")) = false)
    by (destruct Hsupported as [-> | [-> | ->]]; reflexivity).
  rewrite Hin. cbn [negb orb].
  unfold serve, bind, read_db. cbn [db session entropy].
  repeat split.
  - intros ->. reflexivity.
  - intros client -> ->. reflexivity.
  - intros client -> -> Hneq. apply opt_eqb_neq in Hneq. rewrite Hneq. reflexivity.
Qed.

Lemma find_none_all {A : Type} (f : A -> bool) (l : list A) :
  (forall a, In a l -> f a = false) -> find f l = None.
Proof.
  induction l as [|x l IH]; intros H; [reflexivity|].
  simpl. rewrite (H x (or_introl eq_refl)). apply IH.
  intros a Ha. apply H. right. exact Ha.
Qed.

Lemma find_app_last {A : Type} (f : A -> bool) (l : list A) (x : A) :
  (forall a, In a l -> f a = false) -> f x = true -> find f (l ++ [x]) = Some x.
Proof.
  induction l as [|y l IH]; intros H Hx; simpl.
  - rewrite Hx. reflexivity.
  - rewrite (H y (or_introl eq_refl)). apply IH; [|exact Hx].
    intros a Ha. apply H. right. exact Ha.
Qed.

(** X6.  A valid redemption: for an authenticated client, a code that is
    found and at most 60 seconds old, the grant's redirect URI and a scope
    within the grant's, the exchange stores one token for the grant's user
    and the client, draws four identifiers, and answers with it.  The
    token's scope is the grant's whole scope, also when the request asked
    for less. *)
Theorem authorization_code_exchange (request : Request.t) (now : Z) (s : State)
    (client : Client.t) (authcode : AuthCode.t) :
  get "grant_type" (Request.form request) = Some "authorization_code" ->
  truthy (get "client_id" (Request.form request)) = true ->
  truthy (get "client_secret" (Request.form request)) = true ->
  Client_by_key (get "client_id" (Request.form request)) (db s) = Some client ->
  Client.active client = true ->
  get "client_secret" (Request.form request) = Some (Client.secret client) ->
  AuthCode_by_code_client (get "code" (Request.form request)) client (db s)
    = Some authcode ->
  now - AuthCode.datetime authcode <= seconds 60 ->
  issubset (split_space (get_default "scope" "" (Request.form request)))
           (AuthCode.scope authcode) = true ->
  get "redirect_uri" (Request.form request) = Some (AuthCode.redirect_uri authcode) ->
  exists t,
    authtokens (db (snd (token_route request now s))) = (authtokens (db s) ++ [t])%list
    /\ AuthToken.user_id t = Some (AuthCode.user_id authcode)
    /\ AuthToken.client_id t = Client.id client
    /\ AuthToken.scope t = AuthCode.scope authcode
    /\ AuthToken.token t = newid_at (entropy s)
    /\ entropy (snd (token_route request now s)) = (4 + entropy s)%nat
    /\ fst (token_route request now s)
         = Returned (jsonify [("access_token", JStr (AuthToken.token t));
                              ("token_type", JNull);
                              ("scope", JStr (AuthCode._scope authcode))]
                             200 [("Cache-Control", "no-store")]).
Proof.
  intros Hgt Hid Hsect Hclient Hactive Hsec Hcode Hage Hsub Huri.
  assert (Hfresh : (AuthCode.datetime authcode <? now - one_minute) = false)
    by (apply Z.ltb_ge; unfold seconds, one_minute in *; lia).
  rewrite (redeem_ok newid_at check_password_hash _ now _ _ _
             Hgt Hid Hsect Hclient Hactive Hsec Hcode Hfresh Hsub Huri).
  eexists. cbn [fst snd db authtokens entropy].
  split; [reflexivity|].
  split; [reflexivity|].
  split; [reflexivity|].
  split.
  { unfold AuthToken.scope, AuthCode.scope. cbn.
    rewrite join_split_space. reflexivity. }
  split; [reflexivity|].
  split; [reflexivity|].
  unfold AuthCode.scope. rewrite !join_split_space. reflexivity.
Qed.


(** X8.  The [password] grant looks the user up and checks the password
    as the login form does.  For an authenticated, trusted client and a
    request with a username and a password: when
    [LoginForm.validate_password] accepts them for a user, the exchange
    stores and returns a token for that user and the client; when it
    rejects them, the exchange answers [invalid_client] and stores
    nothing; when it is left by an exception, so is the exchange. *)
Theorem password_grant_follows_login_form (request : Request.t) (now : Z) (s : State)
    (client : Client.t) (name pw : string) :
  get "grant_type" (Request.form request) = Some "password" ->
  truthy (get "client_id" (Request.form request)) = true ->
  truthy (get "client_secret" (Request.form request)) = true ->
  Client_by_key (get "client_id" (Request.form request)) (db s) = Some client ->
  Client.active client = true ->
  Client.trusted client = true ->
  get "client_secret" (Request.form request) = Some (Client.secret client) ->
  nonblank (get "username" (Request.form request)) = Some name ->
  nonblank (get "password" (Request.form request)) = Some pw ->
  (forall u,
     fst (validate_password name pw s) = Returned (inr u) ->
     exists t,
       authtokens (db (snd (token_route request now s)))
         = (authtokens (db s) ++ [t])%list
       /\ AuthToken.user_id t = Some (User.id u)
       /\ AuthToken.client_id t = Client.id client
       /\ fst (token_route request now s)
            = Returned (jsonify
                [("access_token", JStr (AuthToken.token t));
                 ("token_type", JNull);
                 ("scope", JStr (get_default "scope" "" (Request.form request)))]
                200 [("Cache-Control", "no-store")]))
  /\ (forall msg,
       fst (validate_password name pw s) = Returned (inl msg) ->
       exists description,
         token_route request now s
           = (Returned (oauth_token_error "invalid_client" (Some description) None),
              {| db := db s; session := []; entropy := entropy s |}))
  /\ (forall e,
       fst (validate_password name pw s) = Raised e ->
       fst (token_route request now s) = Raised e).
Proof.
  intros Hgt Hid Hsect Hclient Hactive Htrusted Hsec Hname Hpw.
  rewrite (token_route_password newid_at check_password_hash
             _ _ _ _ Hgt Hid Hsect Hclient Hactive Htrusted Hsec).
  unfold oauth_token_password, validate_password, getuser.
  rewrite Htrusted, Hname, Hpw.
  unfold serve, bind, read_db, check_password, ret, raise.
  cbn [negb db session entropy fst snd].
  destruct (contains_at name).
  - destruct (UserEmail_by_email name (db s)) as [useremail|].
    + destruct (UserEmail_user useremail (db s)) as [user|].
      * destruct (User.pw_hash user) as [h|].
        -- destruct (check_password_hash h pw); cbn [negb fst snd].
           ++ rewrite oauth_make_token_eq, oauth_token_success_made.
              cbn [fst snd db session entropy fold_left flush_one authtokens List.app].
              repeat split; try (intros; discriminate).
              intros u Hu. injection Hu as <-.
              eexists. split; [reflexivity|].
              repeat split. rewrite !join_split_space. reflexivity.
           ++ repeat split; try (intros; discriminate).
              intros msg _. eexists. reflexivity.
        -- cbn [fst snd]. repeat split; try (intros; discriminate).
           intros e He. injection He as <-. reflexivity.
      * cbn [fst snd]. repeat split; try (intros; discriminate).
        intros msg _. eexists. reflexivity.
    + cbn [fst snd]. repeat split; try (intros; discriminate).
      intros e He. injection He as <-. reflexivity.
  - destruct (User_by_username name (db s)) as [user|].
    + destruct (User.pw_hash user) as [h|].
      * destruct (check_password_hash h pw); cbn [negb fst snd].
        -- rewrite oauth_make_token_eq, oauth_token_success_made.
           cbn [fst snd db session entropy fold_left flush_one authtokens List.app].
           repeat split; try (intros; discriminate).
           intros u Hu. injection Hu as <-.
           eexists. split; [reflexivity|].
           repeat split. rewrite !join_split_space. reflexivity.
        -- repeat split; try (intros; discriminate).
           intros msg _. eexists. reflexivity.
      * cbn [fst snd]. repeat split; try (intros; discriminate).
        intros e He. injection He as <-. reflexivity.
    + cbn [fst snd]. repeat split; try (intros; discriminate).
      intros msg _. eexists. reflexivity.
Qed.

(** X9.  The [password] grant is refused to a client that is not
    trusted, with [unauthorized_client], whatever username and password
    the request carries; a trusted client that sends no username or no
    password is answered with [invalid_request].  Nothing is stored. *)
Theorem password_grant_refusals (request : Request.t) (now : Z) (s : State)
    (client : Client.t) :
  get "grant_type" (Request.form request) = Some "password" ->
  truthy (get "client_id" (Request.form request)) = true ->
  truthy (get "client_secret" (Request.form request)) = true ->
  Client_by_key (get "client_id" (Request.form request)) (db s) = Some client ->
  Client.active client = true ->
  get "client_secret" (Request.form request) = Some (Client.secret client) ->
  (Client.trusted client = false ->
     token_route request now s
       = (Returned (oauth_token_error "unauthorized_client"
                      (Some "Client not trusted for password grant_type") None),
          {| db := db s; session := []; entropy := entropy s |}))
  /\ (Client.trusted client = true ->
      truthy (get "username" (Request.form request)) = false
      \/ truthy (get "password" (Request.form request)) = false ->
      token_route request now s
        = (Returned (oauth_token_error "invalid_request"
                       (Some "Username or password not provided") None),
           {| db := db s; session := []; entropy := entropy s |})).
Proof.
  intros Hgt Hid Hsect Hclient Hactive Hsec. split.
  - intros Htrusted.
    unfold token_route, oauth_token.
    rewrite Hid, Hsect, Hgt. simpl.
    unfold serve, bind, read_db. simpl.
    rewrite Hclient, Hactive, Htrusted, Hsec. simpl.
    rewrite String.eqb_refl. reflexivity.
  - intros Htrusted Hmissing.
    rewrite (token_route_password newid_at check_password_hash
               _ _ _ _ Hgt Hid Hsect Hclient Hactive Htrusted Hsec).
    unfold oauth_token_password. rewrite Htrusted. cbn [negb].
    destruct Hmissing as [H | H].
    + rewrite (nonblank_falsy _ H). reflexivity.
    + rewrite (nonblank_falsy _ H).
      destruct (nonblank (get "username" (Request.form request))); reflexivity.
Qed.

(** X10.  A token is stored only for an authenticated client: whenever a
    token request adds to the table of tokens, its [client_id] is the key
    of an active client, its [client_secret] is that client's secret, and
    its grant type is [authorization_code], [client_credentials] or, for
    a trusted client, [password]. *)
Theorem tokens_only_for_authenticated_clients (request : Request.t) (now : Z)
    (s : State) :
  authtokens (db (snd (token_route request now s))) <> authtokens (db s) ->
  exists client,
    Client_by_key (get "client_id" (Request.form request)) (db s) = Some client
    /\ Client.active client = true
    /\ get "client_secret" (Request.form request) = Some (Client.secret client)
    /\ (get "grant_type" (Request.form request) = Some "authorization_code"
        \/ get "grant_type" (Request.form request) = Some "client_credentials"
        \/ (get "grant_type" (Request.form request) = Some "password"
            /\ Client.trusted client = true)).
Proof.
  token_cases.
  all: intros Hnew; try (exfalso; apply Hnew; reflexivity).
  all: bool_facts.
  all: eexists; split; [reflexivity|].
  all: split; [assumption|].
  all: split; [assumption|].
  all: try (left; assumption).
  all: try (right; left; assumption).
  all: right; right; split; [assumption|].
  all: assumption.
Qed.

(** ** The authorization flow *)

(** Issuing a code: [oauth_make_auth_code] followed by
    [oauth_auth_success]. *)
Lemma issue_code_eq (g_user : User.t) (client : Client.t) (scope : list string)
    (uri : string) (state : option string) (now : Z) (st : State) :
  (code <- oauth_make_auth_code g_user client scope uri ;;
   oauth_auth_success now uri state code) st
  = (redirect_to uri
          (("code", (newid_at (entropy st) ++ newid_at (S (entropy st)))%string)
           :: match state with Some v => [("state", v)] | None => [] end) 302,
     {| db := fold_left (flush_one now)
                (session st
                 ++ [NewAuthCode
                       (AuthCode.new (User.id g_user) (Client.id client)
                          (newid_at (entropy st) ++ newid_at (S (entropy st)))%string
                          (join_space scope) uri)])
                (db st);
        session := [];
        entropy := S (S (entropy st)) |}).
Proof.
  unfold redirect_to.
  destruct state as [v|];
    cbv beta iota zeta
        delta [bind ret oauth_make_auth_code oauth_auth_success newsecret newid
               db_session_add db_session_commit make_redirect_url];
    cbn [db session entropy AuthCode.t_code];
    match goal with
    | |- context [redirect_url ?u ?ps] => destruct (redirect_url u ps)
    end;
    reflexivity.
Qed.

(** The state after the grant of [client] to [g_user] for [uri] has been
    committed at [now]. *)
Lemma serve_issue_code (g_user : User.t) (client : Client.t) (scope : list string)
    (uri : string) (state : option string) (now : Z) (s : State) :
  serve (code <- oauth_make_auth_code g_user client scope uri ;;
         oauth_auth_success now uri state code) s
  = (redirect_to uri
          (("code", (newid_at (entropy s) ++ newid_at (S (entropy s)))%string)
           :: match state with Some v => [("state", v)] | None => [] end) 302,
     {| db := {| users := users (db s);
                 useremails := useremails (db s);
                 clients := clients (db s);
                 authcodes :=
                   authcodes (db s)
                   ++ [AuthCode.mk (User.id g_user) (Client.id client)
                         (newid_at (entropy s) ++ newid_at (S (entropy s)))%string
                         (join_space scope) uri now false];
                 authtokens := authtokens (db s) |};
        session := [];
        entropy := S (S (entropy s)) |}).
Proof. unfold serve. rewrite issue_code_eq. reflexivity. Qed.

(** X11.  A trusted client gets its code without a consent step: a [GET]
    request of a logged-in user that names an active, trusted client,
    passes the redirect URI cross-check and has [response_type=code] and
    [scope=id] stores one grant (for the user, the client, scope [id], the
    cross-checked redirect URI, dated [now], not used) whose code is made
    of the next two identifiers, and then builds the redirect to the
    redirect URI with the request's [state], if any, and that code.  The
    grant is committed before the URL is built: with a [state] that is not
    ASCII the grant is stored and the view is left by
    [UnicodeEncodeError]. *)
Theorem trusted_client_skips_consent (g_user : User.t) (request : Request.t)
    (now : Z) (s : State) (client : Client.t) (uri : string) :
  truthy (get "client_id" (Request.args request)) = true ->
  Client_by_key (get "client_id" (Request.args request)) (db s) = Some client ->
  Client.active client = true ->
  cross_check_redirect_uri client (get "redirect_uri" (Request.args request)) = Some uri ->
  get "response_type" (Request.args request) = Some "code" ->
  get "scope" (Request.args request) = Some "id" ->
  Request.method request = GET ->
  Client.trusted client = true ->
  authorize g_user request now s
  = (redirect_to uri
       (("code", (newid_at (entropy s) ++ newid_at (S (entropy s)))%string)
        :: match get "state" (Request.args request) with
           | Some v => [("state", v)]
           | None => []
           end) 302,
     {| db := {| users := users (db s);
                 useremails := useremails (db s);
                 clients := clients (db s);
                 authcodes :=
                   authcodes (db s)
                   ++ [AuthCode.mk (User.id g_user) (Client.id client)
                         (newid_at (entropy s) ++ newid_at (S (entropy s)))%string
                         "id" uri now false];
                 authtokens := authtokens (db s) |};
        session := [];
        entropy := S (S (entropy s)) |})
  /\ (forall state,
      get "state" (Request.args request) = Some state ->
      is_ascii state = false ->
      fst (authorize g_user request now s) = Raised UnicodeEncodeError).
Proof.
  intros Hid Hclient Hactive Hcheck Hrt Hscope Hget Htrusted.
  rewrite (authorize_cross_checked newid_at urlsplit hostname parse_qsl
             urlencode_ascii urlunsplit _ _ _ _ _ _ Hid Hclient Hactive Hcheck).
  unfold get_default. rewrite Hrt, Hscope.
  unfold oauth_authorize_from_2_1. rewrite Hget, Htrusted.
  cbn [truthy negb opt_eqb String.eqb Ascii.eqb Bool.eqb split_space
       nonempty_list list_eqb andb].
  rewrite serve_issue_code.
  split; [reflexivity|].
  intros state Hstate Hascii. rewrite Hstate. cbn [fst].
  apply (redirect_to_non_ascii urlsplit parse_qsl urlencode_ascii urlunsplit
           _ _ _ "state" state); [right; left; reflexivity | exact Hascii].
Qed.

(** X12.  The user's decision: for a valid request (active client,
    cross-checked redirect URI, [response_type=code], [scope=id]) sent by
    [POST] with a valid CSRF token, also by a trusted client: [accept]
    stores the grant and then builds the redirect with its code, as the
    trusted bypass does; [deny] without [accept] builds the redirect with
    [access_denied] and stores nothing.  The redirect is the answer
    unless the URL cannot be built: with a [state] that is not ASCII the
    view is left by [UnicodeEncodeError], after [accept] with the grant
    already stored. *)
Theorem consent_decision (g_user : User.t) (request : Request.t)
    (now : Z) (s : State) (client : Client.t) (uri : string) :
  truthy (get "client_id" (Request.args request)) = true ->
  Client_by_key (get "client_id" (Request.args request)) (db s) = Some client ->
  Client.active client = true ->
  cross_check_redirect_uri client (get "redirect_uri" (Request.args request)) = Some uri ->
  get "response_type" (Request.args request) = Some "code" ->
  get "scope" (Request.args request) = Some "id" ->
  Request.method request = POST ->
  Request.csrf_valid request = true ->
  (has_key "accept" (Request.form request) = true ->
   authorize g_user request now s
   = (redirect_to uri
           (("code", (newid_at (entropy s) ++ newid_at (S (entropy s)))%string)
            :: match get "state" (Request.args request) with
               | Some v => [("state", v)]
               | None => []
               end) 302,
      {| db := {| users := users (db s);
                  useremails := useremails (db s);
                  clients := clients (db s);
                  authcodes :=
                    authcodes (db s)
                    ++ [AuthCode.mk (User.id g_user) (Client.id client)
                          (newid_at (entropy s) ++ newid_at (S (entropy s)))%string
                          "id" uri now false];
                  authtokens := authtokens (db s) |};
         session := [];
         entropy := S (S (entropy s)) |}))
  /\ (has_key "accept" (Request.form request) = false ->
      has_key "deny" (Request.form request) = true ->
      authorize g_user request now s
      = (redirect_to uri
           (auth_error_params (get "state" (Request.args request))
              "access_denied" None None) 302,
         {| db := db s; session := []; entropy := entropy s |}))
  /\ (forall state,
      get "state" (Request.args request) = Some state ->
      is_ascii state = false ->
      has_key "accept" (Request.form request) = true
      \/ has_key "deny" (Request.form request) = true ->
      fst (authorize g_user request now s) = Raised UnicodeEncodeError).
Proof.
  intros Hid Hclient Hactive Hcheck Hrt Hscope Hpost Hcsrf.
  rewrite (authorize_cross_checked newid_at urlsplit hostname parse_qsl
             urlencode_ascii urlunsplit _ _ _ _ _ _ Hid Hclient Hactive Hcheck).
  unfold get_default. rewrite Hrt, Hscope.
  unfold oauth_authorize_from_2_1, validate_on_submit. rewrite Hpost, Hcsrf.
  cbn [truthy negb opt_eqb String.eqb Ascii.eqb Bool.eqb split_space
       nonempty_list list_eqb andb].
  split; [|split].
  - intros ->. apply serve_issue_code.
  - intros -> ->. unfold serve. rewrite oauth_auth_error_some. reflexivity.
  - intros state Hstate Hascii Hdecision. rewrite Hstate.
    destruct (has_key "accept" (Request.form request)).
    + rewrite serve_issue_code. cbn [fst].
      apply (redirect_to_non_ascii urlsplit parse_qsl urlencode_ascii urlunsplit
               _ _ _ "state" state); [right; left; reflexivity | exact Hascii].
    + destruct Hdecision as [Habs | ->]; [discriminate|].
      unfold serve. rewrite oauth_auth_error_some. cbn [fst].
      apply (redirect_to_non_ascii urlsplit parse_qsl urlencode_ascii urlunsplit
               _ _ _ "state" state);
        [apply state_in_auth_error_params | exact Hascii].
Qed.

(** X13.  Showing the consent page changes nothing.  A valid request is
    answered with the consent page, and neither the database nor the
    entropy consumed changes, when it is a [GET] of a client that is not
    trusted, a [POST] whose CSRF token does not validate, or a [POST]
    that carries neither [accept] nor [deny]. *)
Theorem consent_page_changes_nothing (g_user : User.t) (request : Request.t)
    (now : Z) (s : State) (client : Client.t) (uri : string) :
  truthy (get "client_id" (Request.args request)) = true ->
  Client_by_key (get "client_id" (Request.args request)) (db s) = Some client ->
  Client.active client = true ->
  cross_check_redirect_uri client (get "redirect_uri" (Request.args request)) = Some uri ->
  get "response_type" (Request.args request) = Some "code" ->
  get "scope" (Request.args request) = Some "id" ->
  (Request.method request = GET /\ Client.trusted client = false)
  \/ (Request.method request = POST /\ Request.csrf_valid request = false)
  \/ (Request.method request = POST
      /\ has_key "accept" (Request.form request) = false
      /\ has_key "deny" (Request.form request) = false) ->
  authorize g_user request now s
  = (Returned (authorize_html client uri ["id"] (get "state" (Request.args request))),
     {| db := db s; session := []; entropy := entropy s |}).
Proof.
  intros Hid Hclient Hactive Hcheck Hrt Hscope Hcase.
  rewrite (authorize_cross_checked newid_at urlsplit hostname parse_qsl
             urlencode_ascii urlunsplit _ _ _ _ _ _ Hid Hclient Hactive Hcheck).
  unfold get_default. rewrite Hrt, Hscope.
  unfold oauth_authorize_from_2_1, validate_on_submit.
  cbn [truthy negb opt_eqb String.eqb Ascii.eqb Bool.eqb split_space
       nonempty_list list_eqb].
  destruct Hcase as [[-> ->] | [[-> ->] | (-> & -> & ->)]].
  - reflexivity.
  - reflexivity.
  - destruct (Request.csrf_valid request); reflexivity.
Qed.

(** X14.  A [client_id] that is the key of no client: when the request
    has a [redirect_uri], the flow builds the redirect to it with the
    error [unauthorized_client] and answers with it, unless the URL cannot
    be built (with a [state] that is not ASCII the view is left by
    [UnicodeEncodeError]); when it has none, the flow answers with the 403
    page.  Nothing is stored. *)
Theorem unknown_client (g_user : User.t) (request : Request.t) (now : Z)
    (s : State) :
  truthy (get "client_id" (Request.args request)) = true ->
  Client_by_key (get "client_id" (Request.args request)) (db s) = None ->
  (forall uri,
     nonblank (get "redirect_uri" (Request.args request)) = Some uri ->
     authorize g_user request now s
     = (redirect_to uri
             (auth_error_params (get "state" (Request.args request))
                "unauthorized_client" None None) 302,
        {| db := db s; session := []; entropy := entropy s |}))
  /\ (truthy (get "redirect_uri" (Request.args request)) = false ->
      authorize g_user request now s
      = (Returned (oauth_auth_403 "Unknown client_id"),
         {| db := db s; session := []; entropy := entropy s |}))
  /\ (forall uri state,
      nonblank (get "redirect_uri" (Request.args request)) = Some uri ->
      get "state" (Request.args request) = Some state ->
      is_ascii state = false ->
      fst (authorize g_user request now s) = Raised UnicodeEncodeError).
Proof.
  intros Hid Hclient.
  unfold authorize, oauth_authorize. rewrite Hid.
  unfold serve, bind, read_db. cbn [negb db session entropy].
  rewrite Hclient. split; [|split].
  - intros uri Huri. apply nonblank_truthy in Huri as [-> ->].
    rewrite oauth_auth_error_some. reflexivity.
  - intros ->. reflexivity.
  - intros uri state Huri Hstate Hascii.
    apply nonblank_truthy in Huri as [-> ->].
    rewrite oauth_auth_error_some, Hstate. cbn [fst].
    apply (redirect_to_non_ascii urlsplit parse_qsl urlencode_ascii urlunsplit
             _ _ _ "state" state);
      [apply state_in_auth_error_params | exact Hascii].
Qed.

(** X15.  [response_type] is validated after the client and the redirect
    URI: for a request that names an active client and passes the
    cross-check, the flow builds the redirect to the cross-checked URI
    with [invalid_request] when [response_type] is missing and with
    [unsupported_response_type] when it is not [code], whatever the scope
    is, and answers with it unless the URL cannot be built (with a [state]
    that is not ASCII the view is left by [UnicodeEncodeError]).  Nothing
    is stored. *)
Theorem response_type_validation (g_user : User.t) (request : Request.t)
    (now : Z) (s : State) (client : Client.t) (uri : string) :
  truthy (get "client_id" (Request.args request)) = true ->
  Client_by_key (get "client_id" (Request.args request)) (db s) = Some client ->
  Client.active client = true ->
  cross_check_redirect_uri client (get "redirect_uri" (Request.args request)) = Some uri ->
  (truthy (get "response_type" (Request.args request)) = false ->
   authorize g_user request now s
   = (redirect_to uri
           (auth_error_params (get "state" (Request.args request))
              "invalid_request" (Some "response_type missing") None) 302,
      {| db := db s; session := []; entropy := entropy s |}))
  /\ (truthy (get "response_type" (Request.args request)) = true ->
      get "response_type" (Request.args request) <> Some "code" ->
      authorize g_user request now s
      = (redirect_to uri
              (auth_error_params (get "state" (Request.args request))
                 "unsupported_response_type" None None) 302,
         {| db := db s; session := []; entropy := entropy s |}))
  /\ (forall state,
      get "response_type" (Request.args request) <> Some "code" ->
      get "state" (Request.args request) = Some state ->
      is_ascii state = false ->
      fst (authorize g_user request now s) = Raised UnicodeEncodeError).
Proof.
  intros Hid Hclient Hactive Hcheck.
  rewrite (authorize_cross_checked newid_at urlsplit hostname parse_qsl
             urlencode_ascii urlunsplit _ _ _ _ _ _ Hid Hclient Hactive Hcheck).
  unfold oauth_authorize_from_2_1, serve. split; [|split].
  - intros ->. cbn [negb]. rewrite oauth_auth_error_some. reflexivity.
  - intros -> Hneq. apply opt_eqb_neq in Hneq. rewrite Hneq. cbn [negb].
    rewrite oauth_auth_error_some. reflexivity.
  - intros state Hneq Hstate Hascii. rewrite Hstate.
    destruct (truthy (get "response_type" (Request.args request))); cbn [negb].
    + apply opt_eqb_neq in Hneq. rewrite Hneq. cbn [negb].
      rewrite oauth_auth_error_some. cbn [fst].
      apply (redirect_to_non_ascii urlsplit parse_qsl urlencode_ascii urlunsplit
               _ _ _ "state" state);
        [apply state_in_auth_error_params | exact Hascii].
    + rewrite oauth_auth_error_some. cbn [fst].
      apply (redirect_to_non_ascii urlsplit parse_qsl urlencode_ascii urlunsplit
               _ _ _ "state" state);
        [apply state_in_auth_error_params | exact Hascii].
Qed.

(** The requests that get past "Validation 1.4", and what the others
    leave behind. *)
Lemma authorize_stage_1 (g_user : User.t) (request : Request.t) (now : Z)
    (s : State) :
  (exists client uri,
     truthy (get "client_id" (Request.args request)) = true
     /\ Client_by_key (get "client_id" (Request.args request)) (db s) = Some client
     /\ Client.active client = true
     /\ cross_check_redirect_uri client (get "redirect_uri" (Request.args request))
          = Some uri)
  \/ snd (authorize g_user request now s)
       = {| db := db s; session := []; entropy := entropy s |}.
Proof.
  destruct (truthy (get "client_id" (Request.args request))) eqn:Hid.
  - destruct (Client_by_key (get "client_id" (Request.args request)) (db s))
      as [client|] eqn:Hclient.
    + destruct (Client.active client) eqn:Hactive.
      * destruct (cross_check_redirect_uri client
                    (get "redirect_uri" (Request.args request))) as [uri|] eqn:Hcc.
        -- left. exists client, uri. auto.
        -- right. unfold cross_check_redirect_uri in Hcc.
           unfold authorize, oauth_authorize. rewrite Hid.
           unfold serve, bind, read_db. cbn [negb db session entropy].
           rewrite Hclient, Hactive. cbn [negb].
           destruct (nonblank (get "redirect_uri" (Request.args request))) as [u|];
             [|discriminate].
           destruct (negb (u =? Client.redirect_uri client)%string); [|discriminate].
           destruct (negb (opt_eqb (hostname (urlsplit u))
                             (hostname (urlsplit (Client.redirect_uri client)))));
             [|discriminate].
           rewrite oauth_auth_error_some. reflexivity.
      * right. unfold authorize, oauth_authorize. rewrite Hid.
        unfold serve, bind, read_db. cbn [negb db session entropy].
        rewrite Hclient, Hactive. cbn [negb].
        destruct (get "redirect_uri" (Request.args request));
          rewrite ?oauth_auth_error_some; reflexivity.
    + right. unfold authorize, oauth_authorize. rewrite Hid.
      unfold serve, bind, read_db. cbn [negb db session entropy].
      rewrite Hclient.
      destruct (get "redirect_uri" (Request.args request)) as [[|c u]|];
        cbn [truthy]; rewrite ?oauth_auth_error_some; reflexivity.
  - right. unfold authorize, oauth_authorize. rewrite Hid. cbn [negb].
    destruct (get "redirect_uri" (Request.args request)) as [[|c u]|];
      cbn [truthy]; unfold serve; rewrite ?oauth_auth_error_some; reflexivity.
Qed.

(** What the flow does from "Validation 2.1" on: it changes nothing, or
    it has validated the request, has the user's consent or a trusted
    client, and commits one grant. *)
Lemma from_2_1_effect (g_user : User.t) (request : Request.t) (now : Z)
    (s : State) (client : Client.t) (uri : string) (response_type : option string)
    (scope : list string) (state : option string) :
  snd (serve (oauth_authorize_from_2_1 g_user request now client uri
                response_type scope state) s)
    = {| db := db s; session := []; entropy := entropy s |}
  \/ (response_type = Some "code"
      /\ scope = ["id"]
      /\ (Request.method request = GET /\ Client.trusted client = true
          \/ Request.method request = POST
             /\ Request.csrf_valid request = true
             /\ has_key "accept" (Request.form request) = true)
      /\ snd (serve (oauth_authorize_from_2_1 g_user request now client uri
                       response_type scope state) s)
         = {| db := {| users := users (db s);
                       useremails := useremails (db s);
                       clients := clients (db s);
                       authcodes :=
                         authcodes (db s)
                         ++ [AuthCode.mk (User.id g_user) (Client.id client)
                               (newid_at (entropy s) ++ newid_at (S (entropy s)))%string
                               "id" uri now false];
                       authtokens := authtokens (db s) |};
              session := [];
              entropy := S (S (entropy s)) |}).
Proof.
  unfold oauth_authorize_from_2_1, validate_on_submit.
  destruct (truthy response_type); cbn [negb]; [|left; unfold serve; rewrite ?oauth_auth_error_some; reflexivity].
  destruct (opt_eqb response_type (Some "code")) eqn:Hrt; cbn [negb];
    [|left; unfold serve; rewrite ?oauth_auth_error_some; reflexivity].
  destruct (nonempty_list scope); cbn [negb]; [|left; unfold serve; rewrite ?oauth_auth_error_some; reflexivity].
  destruct (list_eqb scope ["id"]) eqn:Hscope; cbn [negb]; [|left; unfold serve; rewrite ?oauth_auth_error_some; reflexivity].
  apply opt_eqb_eq in Hrt. apply list_eqb_eq in Hscope. subst scope.
  destruct (Request.method request) eqn:Hm.
  - destruct (Client.trusted client) eqn:Ht; cbn [andb].
    + right. rewrite serve_issue_code. cbn [snd]. auto 10.
    + left. unfold serve. rewrite ?oauth_auth_error_some. reflexivity.
  - cbn [andb].
    destruct (Request.csrf_valid request) eqn:Hcsrf; [|left; unfold serve; rewrite ?oauth_auth_error_some; reflexivity].
    destruct (has_key "accept" (Request.form request)) eqn:Ha.
    + right. rewrite serve_issue_code. cbn [snd]. auto 10.
    + destruct (has_key "deny" (Request.form request)); left; unfold serve; rewrite ?oauth_auth_error_some; reflexivity.
Qed.

(** An authorization request changes nothing or adds one grant whose
    code is made of the next two identifiers. *)
Lemma grants_only_lemma (g_user : User.t) (request : Request.t) (now : Z)
    (s : State) :
  snd (authorize g_user request now s)
    = {| db := db s; session := []; entropy := entropy s |}
  \/ exists client uri,
       authcodes (db (snd (authorize g_user request now s)))
       = (authcodes (db s)
          ++ [AuthCode.mk (User.id g_user) (Client.id client)
                (newid_at (entropy s) ++ newid_at (S (entropy s)))%string
                "id" uri now false])%list.
Proof.
  destruct (authorize_stage_1 g_user request now s)
    as [(client & uri & Hid & Hclient & Hactive & Hcc) | Hsame]; [|left; exact Hsame].
  rewrite (authorize_cross_checked newid_at urlsplit hostname parse_qsl
             urlencode_ascii urlunsplit _ _ _ _ _ _ Hid Hclient Hactive Hcc).
  destruct (from_2_1_effect g_user request now s client uri
              (get "response_type" (Request.args request))
              (split_space (get_default "scope" "" (Request.args request)))
              (get "state" (Request.args request)))
    as [Hsame | (_ & _ & _ & Hnew)]; [left; exact Hsame|].
  right. exists client, uri. rewrite Hnew. reflexivity.
Qed.

(** X16.  Grants are issued only after validation and consent.  An
    authorization request never touches users, e-mail addresses, clients
    or tokens; and it either leaves the database and the entropy alone, or
    it names an active client, passes the redirect URI cross-check, has
    [response_type=code] and exactly the scope [id], comes by [GET] from a
    trusted client or by [POST] with a valid CSRF token and [accept], and
    adds exactly one grant: for the logged-in user and that client, of
    scope [id], for the cross-checked redirect URI, dated [now], not
    used. *)
Theorem grants_only_after_validation (g_user : User.t) (request : Request.t)
    (now : Z) (s : State) :
  users (db (snd (authorize g_user request now s))) = users (db s)
  /\ useremails (db (snd (authorize g_user request now s))) = useremails (db s)
  /\ clients (db (snd (authorize g_user request now s))) = clients (db s)
  /\ authtokens (db (snd (authorize g_user request now s))) = authtokens (db s)
  /\ (snd (authorize g_user request now s)
        = {| db := db s; session := []; entropy := entropy s |}
      \/ exists client uri,
           Client_by_key (get "client_id" (Request.args request)) (db s) = Some client
           /\ Client.active client = true
           /\ cross_check_redirect_uri client
                (get "redirect_uri" (Request.args request)) = Some uri
           /\ get "response_type" (Request.args request) = Some "code"
           /\ split_space (get_default "scope" "" (Request.args request)) = ["id"]
           /\ (Request.method request = GET /\ Client.trusted client = true
               \/ Request.method request = POST
                  /\ Request.csrf_valid request = true
                  /\ has_key "accept" (Request.form request) = true)
           /\ authcodes (db (snd (authorize g_user request now s)))
              = (authcodes (db s)
                 ++ [AuthCode.mk (User.id g_user) (Client.id client)
                       (newid_at (entropy s) ++ newid_at (S (entropy s)))%string
                       "id" uri now false])%list).
Proof.
  destruct (authorize_stage_1 g_user request now s)
    as [(client & uri & Hid & Hclient & Hactive & Hcc) | Hsame].
  - rewrite (authorize_cross_checked newid_at urlsplit hostname parse_qsl
               urlencode_ascii urlunsplit _ _ _ _ _ _ Hid Hclient Hactive Hcc).
    destruct (from_2_1_effect g_user request now s client uri
                (get "response_type" (Request.args request))
                (split_space (get_default "scope" "" (Request.args request)))
                (get "state" (Request.args request)))
      as [Hsame | (Hrt & Hscope & Hconsent & Hnew)].
    + rewrite Hsame. cbn [db]. repeat split. left. reflexivity.
    + rewrite Hnew. cbn [db users useremails clients authtokens authcodes].
      repeat split. right. exists client, uri. auto 10.
  - rewrite Hsame. cbn [db]. repeat split. left. reflexivity.
Qed.

(** X17.  The route [/auth] serves only logged-in users: a request whose
    browser session names no user, or a user id that no user has, is
    redirected to the login page with the request's URL as [next], and
    nothing is stored; a request whose session names a user is handled by
    the view for the first user with that id. *)
Theorem auth_route_requires_login (sess : Session.t) (request : Request.t)
    (now : Z) (s : State) :
  (get "userid" sess = None
   \/ (exists userid, get "userid" sess = Some userid
                      /\ forall u, In u (users (db s)) -> User.userid u <> userid) ->
   auth_route sess request now s
   = (Returned (redirect (url_for_login (Request.url request)) 302),
      {| db := db s; session := []; entropy := entropy s |}))
  /\ (forall userid user,
       get "userid" sess = Some userid ->
       User_by_userid userid (db s) = Some user ->
       auth_route sess request now s = authorize user request now s).
Proof.
  split.
  - intros Hanon.
    assert (Hnone : lookup_current_user sess (db s) = None).
    { unfold lookup_current_user.
      destruct Hanon as [-> | (userid & -> & Hunknown)]; [reflexivity|].
      apply find_none_all. intros u Hu. apply String.eqb_neq.
      apply Hunknown. exact Hu. }
    unfold auth_route. rewrite Hnone. reflexivity.
  - intros userid user Hsess Huser.
    unfold auth_route, authorize, lookup_current_user.
    rewrite Hsess, Huser. reflexivity.
Qed.

(** A valid request with consent, or of a trusted client: the response
    and the state it leaves. *)
Lemma authorize_issues (g_user : User.t) (request : Request.t)
    (now : Z) (s : State) (client : Client.t) (uri : string) :
  truthy (get "client_id" (Request.args request)) = true ->
  Client_by_key (get "client_id" (Request.args request)) (db s) = Some client ->
  Client.active client = true ->
  cross_check_redirect_uri client (get "redirect_uri" (Request.args request)) = Some uri ->
  get "response_type" (Request.args request) = Some "code" ->
  get "scope" (Request.args request) = Some "id" ->
  (Request.method request = GET /\ Client.trusted client = true
   \/ Request.method request = POST
      /\ Request.csrf_valid request = true
      /\ has_key "accept" (Request.form request) = true) ->
  authorize g_user request now s
  = (redirect_to uri
          (("code", (newid_at (entropy s) ++ newid_at (S (entropy s)))%string)
           :: match get "state" (Request.args request) with
              | Some v => [("state", v)]
              | None => []
              end) 302,
     {| db := {| users := users (db s);
                 useremails := useremails (db s);
                 clients := clients (db s);
                 authcodes :=
                   authcodes (db s)
                   ++ [AuthCode.mk (User.id g_user) (Client.id client)
                         (newid_at (entropy s) ++ newid_at (S (entropy s)))%string
                         "id" uri now false];
                 authtokens := authtokens (db s) |};
        session := [];
        entropy := S (S (entropy s)) |}).
Proof.
  intros Hid Hclient Hactive Hcheck Hrt Hscope Hconsent.
  rewrite (authorize_cross_checked newid_at urlsplit hostname parse_qsl
             urlencode_ascii urlunsplit _ _ _ _ _ _ Hid Hclient Hactive Hcheck).
  unfold get_default. rewrite Hrt, Hscope.
  unfold oauth_authorize_from_2_1, validate_on_submit.
  cbn [truthy negb opt_eqb String.eqb Ascii.eqb Bool.eqb split_space
       nonempty_list list_eqb].
  destruct Hconsent as [[-> ->] | (-> & -> & ->)]; cbn [andb];
    apply serve_issue_code.
Qed.

(** X18.  A code that the authorization flow has just issued can be
    redeemed.  After a valid request with consent (or of a trusted
    client) whose code no earlier grant carries, a token request of the
    same client with its secret, that code, the redirect URI the code was
    issued for and [scope=id], made no more than 60 seconds later, stores
    and returns a token for the user who authorized, the client and the
    scope [id]. *)
Theorem issued_code_can_be_redeemed (g_user : User.t) (areq treq : Request.t)
    (now now' : Z) (s : State) (client : Client.t) (uri : string) :
  truthy (get "client_id" (Request.args areq)) = true ->
  Client_by_key (get "client_id" (Request.args areq)) (db s) = Some client ->
  Client.active client = true ->
  cross_check_redirect_uri client (get "redirect_uri" (Request.args areq)) = Some uri ->
  get "response_type" (Request.args areq) = Some "code" ->
  get "scope" (Request.args areq) = Some "id" ->
  (Request.method areq = GET /\ Client.trusted client = true
   \/ Request.method areq = POST
      /\ Request.csrf_valid areq = true
      /\ has_key "accept" (Request.form areq) = true) ->
  (forall a, In a (authcodes (db s)) ->
             AuthCode.code a
               <> (newid_at (entropy s) ++ newid_at (S (entropy s)))%string) ->
  get "grant_type" (Request.form treq) = Some "authorization_code" ->
  get "client_id" (Request.form treq) = get "client_id" (Request.args areq) ->
  get "client_secret" (Request.form treq) = Some (Client.secret client) ->
  Client.secret client <> "" ->
  get "code" (Request.form treq)
    = Some (newid_at (entropy s) ++ newid_at (S (entropy s)))%string ->
  get "redirect_uri" (Request.form treq) = Some uri ->
  get "scope" (Request.form treq) = Some "id" ->
  now' - now <= seconds 60 ->
  exists t,
    authtokens (db (snd (token_route treq now'
                           (snd (authorize g_user areq now s)))))
      = (authtokens (db s) ++ [t])%list
    /\ AuthToken.user_id t = Some (User.id g_user)
    /\ AuthToken.client_id t = Client.id client
    /\ AuthToken.scope t = ["id"]
    /\ fst (token_route treq now' (snd (authorize g_user areq now s)))
         = Returned (jsonify [("access_token", JStr (newid_at (S (S (entropy s)))));
                              ("token_type", JNull);
                              ("scope", JStr "id")]
                             200 [("Cache-Control", "no-store")]).
Proof.
  intros Hid Hclient Hactive Hcc Hrt Hscope Hconsent Hfresh
         Hgt Hcid Hsec Hsecne Hcode Huri Htscope Hage.
  rewrite (authorize_issues _ _ _ _ _ _ Hid Hclient Hactive Hcc Hrt Hscope Hconsent).
  cbn [snd].
  set (code := (newid_at (entropy s) ++ newid_at (S (entropy s)))%string) in *.
  set (grant := AuthCode.mk (User.id g_user) (Client.id client) code "id" uri now false).
  set (s1 := {| db := {| users := users (db s);
                         useremails := useremails (db s);
                         clients := clients (db s);
                         authcodes := authcodes (db s) ++ [grant];
                         authtokens := authtokens (db s) |};
                session := [];
                entropy := S (S (entropy s)) |}).
  assert (Hid' : truthy (get "client_id" (Request.form treq)) = true)
    by (rewrite Hcid; exact Hid).
  assert (Hsect : truthy (get "client_secret" (Request.form treq)) = true).
  { rewrite Hsec. destruct (Client.secret client); [congruence|reflexivity]. }
  assert (Hclient' : Client_by_key (get "client_id" (Request.form treq)) (db s1)
                     = Some client)
    by (rewrite Hcid; exact Hclient).
  assert (Hgrant : AuthCode_by_code_client (get "code" (Request.form treq)) client (db s1)
                   = Some grant).
  { rewrite Hcode. unfold AuthCode_by_code_client. cbn [db authcodes s1].
    apply find_app_last.
    - intros a Ha. cbn [opt_eqb].
      replace (AuthCode.code a =? code)%string with false; [reflexivity|].
      symmetry. apply String.eqb_neq. apply Hfresh. exact Ha.
    - cbn [opt_eqb grant AuthCode.code AuthCode.client_id].
      rewrite String.eqb_refl, Nat.eqb_refl. reflexivity. }
  assert (Hunexpired : (AuthCode.datetime grant <? now' - one_minute) = false)
    by (apply Z.ltb_ge; cbn [grant AuthCode.datetime];
        unfold seconds, one_minute in *; lia).
  assert (Hsub : issubset (split_space (get_default "scope" "" (Request.form treq)))
                          (AuthCode.scope grant) = true)
    by (unfold get_default; rewrite Htscope; reflexivity).
  rewrite (redeem_ok newid_at check_password_hash treq now' s1 client grant
             Hgt Hid' Hsect Hclient' Hactive Hsec Hgrant Hunexpired Hsub Huri).
  eexists. cbn [fst snd db authtokens entropy s1].
  split; [reflexivity|].
  repeat split.
Qed.

(** ** Logout *)

Lemma lookup_filter_other (key k : string) (sess : Cookie) :
  k <> key ->
  lookup k (filter (fun kv => negb (String.eqb (fst kv) key)) sess) = lookup k sess.
Proof.
  intros Hneq. induction sess as [|[k' v] sess IH]; [reflexivity|].
  simpl. destruct (String.eqb k' key) eqn:Hk'; simpl.
  - apply String.eqb_eq in Hk'. subst k'.
    replace (String.eqb key k) with false
      by (symmetry; apply String.eqb_neq; congruence).
    exact IH.
  - destruct (String.eqb k' k); [reflexivity | exact IH].
Qed.

Lemma lookup_filter_same (key : string) (sess : Cookie) :
  lookup key (filter (fun kv => negb (String.eqb (fst kv) key)) sess) = None.
Proof.
  induction sess as [|[k' v] sess IH]; [reflexivity|].
  simpl. destruct (String.eqb k' key) eqn:Hk'; simpl.
  - exact IH.
  - rewrite Hk'. exact IH.
Qed.

Lemma lookup_setitem_same (key : string) (v : session_value) (sess : Cookie) :
  lookup key (setitem key v sess) = Some v.
Proof.
  induction sess as [|[k' w] sess IH]; simpl.
  - rewrite String.eqb_refl. reflexivity.
  - destruct (String.eqb k' key) eqn:Hk'; simpl.
    + rewrite String.eqb_refl. reflexivity.
    + rewrite Hk'. exact IH.
Qed.

Lemma lookup_setitem_other (key k : string) (v : session_value) (sess : Cookie) :
  k <> key ->
  lookup k (setitem key v sess) = lookup k sess.
Proof.
  intros Hneq. induction sess as [|[k' w] sess IH]; simpl.
  - replace (String.eqb key k) with false
      by (symmetry; apply String.eqb_neq; congruence).
    reflexivity.
  - destruct (String.eqb k' key) eqn:Hk'; simpl.
    + apply String.eqb_eq in Hk'. subst k'.
      replace (String.eqb key k) with false
        by (symmetry; apply String.eqb_neq; congruence).
      reflexivity.
    + destruct (String.eqb k' k); [reflexivity | exact IH].
Qed.

Lemma get_texts_none (key : string) (sess : Cookie) :
  lookup key sess = None -> get key (texts sess) = None.
Proof.
  induction sess as [|[k' v] sess IH]; [reflexivity|].
  simpl. destruct (String.eqb k' key) eqn:Hk'; [discriminate|].
  intros H. destruct v; simpl; try rewrite Hk'; exact (IH H).
Qed.

(** X19.  Logging out.  Without a logged-in user the view is left by
    [KeyError] and gives no response.  Otherwise, with the flashed
    messages of the session being a list (as Flask keeps them), it answers
    with a 303 redirect, to the [next] parameter as it is when the request
    has one and to the index page when it has none, and leaves a session
    in which nobody is logged in (so that the next request has no current
    user, whatever the database holds), [_permanent] is [False], the
    message [You are now logged out] of category [info] is appended to
    the flashed messages, and every other key is as before.  Were
    [_flashes] not a list, the view would be left by [AttributeError]. *)
Theorem logout_clears_session (sess : Cookie) (request : Request.t) :
  (lookup "userid" sess = None -> logout sess request = LogoutKeyError)
  /\ (forall userid flashes,
       lookup "userid" sess = Some userid ->
       pending_flashes sess = Some flashes ->
       exists sess',
         logout sess request
           = LoggedOut (redirect (match get "next" (Request.args request) with
                                  | Some next => next
                                  | None => url_for_index
                                  end) 303) sess'
         /\ lookup "userid" sess' = None
         /\ (forall d, lookup_current_user (texts sess') d = None)
         /\ lookup "_permanent" sess' = Some (SBool false)
         /\ lookup "_flashes" sess'
            = Some (SFlashes (flashes ++ [("info", "You are now logged out")]))
         /\ (forall k, k <> "userid" -> k <> "_permanent" -> k <> "_flashes" ->
                       lookup k sess' = lookup k sess))
  /\ (forall userid,
       lookup "userid" sess = Some userid ->
       pending_flashes sess = None ->
       logout sess request = LogoutAttributeError).
Proof.
  assert (Hflashes :
            pending_flashes
              (set_permanent false
                 (filter (fun kv => negb (String.eqb (fst kv) "userid")) sess))
            = pending_flashes sess).
  { unfold pending_flashes, set_permanent.
    rewrite lookup_setitem_other by discriminate.
    rewrite lookup_filter_other by discriminate. reflexivity. }
  split; [|split].
  - intros Hnone. unfold logout, del. rewrite Hnone. reflexivity.
  - intros userid flashes Hsome Hpending.
    exists (setitem "_flashes"
              (SFlashes (flashes ++ [("info", "You are now logged out")]))
              (set_permanent false
                 (filter (fun kv => negb (String.eqb (fst kv) "userid")) sess))).
    assert (Hgone :
              lookup "userid"
                (setitem "_flashes"
                   (SFlashes (flashes ++ [("info", "You are now logged out")]))
                   (set_permanent false
                      (filter (fun kv => negb (String.eqb (fst kv) "userid")) sess)))
              = None).
    { unfold set_permanent.
      rewrite !lookup_setitem_other by discriminate. apply lookup_filter_same. }
    split.
    + unfold logout, del, flash, has_key, get_default.
      rewrite Hsome, Hflashes, Hpending.
      destruct (get "next" (Request.args request)); reflexivity.
    + split; [exact Hgone|].
      split.
      * intros d. unfold lookup_current_user.
        rewrite (get_texts_none _ _ Hgone). reflexivity.
      * split.
        { unfold set_permanent. rewrite lookup_setitem_other by discriminate.
          apply lookup_setitem_same. }
        split; [apply lookup_setitem_same|].
        intros k Hk Hp Hf. unfold set_permanent.
        rewrite !lookup_setitem_other by assumption.
        apply lookup_filter_other. exact Hk.
  - intros userid Hsome Hpending.
    unfold logout, del, flash. rewrite Hsome, Hflashes, Hpending. reflexivity.
Qed.

(** ** Identifiers *)

Lemma length_append (a b : string) :
  String.length (a ++ b) = (String.length a + String.length b)%nat.
Proof. induction a as [|c a IH]; simpl; [reflexivity | rewrite IH; reflexivity]. Qed.

Lemma app_last_neq {A : Type} (l : list A) (x : A) : l <> (l ++ [x])%list.
Proof.
  intros H. apply (f_equal (@List.length A)) in H.
  rewrite List.length_app in H. simpl in H. lia.
Qed.

Lemma app_last_inj {A : Type} (l : list A) (x y : A) :
  (l ++ [x])%list = (l ++ [y])%list -> x = y.
Proof. intros H. apply List.app_inv_head in H. congruence. Qed.

(** X20.  Identifiers fit their columns.  When the identifier source
    yields 22 characters, as [newid] documents, every token a token
    request stores has a [token] and a [refresh_token] of 22 characters
    and a [secret] of 44, and every grant an authorization request stores
    has a [code] of 44 characters ([newsecret] joins two identifiers). *)
Theorem identifier_lengths :
  (forall n, String.length (newid_at n) = 22%nat) ->
  (forall request now s t,
     authtokens (db (snd (token_route request now s)))
       = (authtokens (db s) ++ [t])%list ->
     String.length (AuthToken.token t) = 22%nat
     /\ String.length (AuthToken.refresh_token t) = 22%nat
     /\ exists sec, AuthToken.secret t = Some sec /\ String.length sec = 44%nat)
  /\ (forall g_user request now s a,
       authcodes (db (snd (authorize g_user request now s)))
         = (authcodes (db s) ++ [a])%list ->
       String.length (AuthCode.code a) = 44%nat).
Proof.
  intros Hlen. split.
  - intros request now s t.
    token_cases.
    all: intros Hnew; try (exfalso; exact (app_last_neq _ _ Hnew)).
    all: apply app_last_inj in Hnew; subst t.
    all: cbn; rewrite !Hlen; split; [reflexivity|]; split; [reflexivity|].
    all: eexists; split; [reflexivity|].
    all: rewrite length_append, !Hlen; reflexivity.
  - intros g_user request now s a Hnew.
    destruct (grants_only_lemma g_user request now s) as [Hsame | Hgrant].
    + rewrite Hsame in Hnew. cbn [db] in Hnew.
      exfalso. exact (app_last_neq _ _ Hnew).
    + destruct Hgrant as (client & uri & Hgrant).
      rewrite Hgrant in Hnew. apply app_last_inj in Hnew. subst a.
      cbn [AuthCode.code]. rewrite length_append, !Hlen. reflexivity.
Qed.

(** X21.  The [client_credentials] grant asks for nothing but the
    client's own credentials: an active client with its secret gets a
    token without user, for whatever [scope] parameter it sends, granted
    before or not; the scope is stored and returned as sent. *)
Theorem client_credentials_any_scope (request : Request.t) (now : Z) (s : State)
    (client : Client.t) :
  get "grant_type" (Request.form request) = Some "client_credentials" ->
  truthy (get "client_id" (Request.form request)) = true ->
  truthy (get "client_secret" (Request.form request)) = true ->
  Client_by_key (get "client_id" (Request.form request)) (db s) = Some client ->
  Client.active client = true ->
  get "client_secret" (Request.form request) = Some (Client.secret client) ->
  exists t,
    authtokens (db (snd (token_route request now s))) = (authtokens (db s) ++ [t])%list
    /\ AuthToken.user_id t = None
    /\ AuthToken.client_id t = Client.id client
    /\ AuthToken._scope t = get_default "scope" "" (Request.form request)
    /\ fst (token_route request now s)
         = Returned (jsonify
             [("access_token", JStr (newid_at (entropy s)));
              ("token_type", JNull);
              ("scope", JStr (get_default "scope" "" (Request.form request)))]
             200 [("Cache-Control", "no-store")]).
Proof.
  intros Hgt Hid Hsect Hclient Hactive Hsec.
  unfold token_route, oauth_token.
  rewrite Hid, Hsect, Hgt.
  cbn [truthy negb orb andb opt_eqb String.eqb Ascii.eqb Bool.eqb].
  unfold serve, bind, read_db. cbn [db session entropy].
  rewrite Hclient, Hactive, Hsec.
  cbn [negb opt_eqb andb]. rewrite String.eqb_refl. cbn [negb].
  rewrite oauth_make_token_eq, oauth_token_success_made.
  cbn [fst snd db session entropy fold_left flush_one authtokens List.app].
  eexists. split; [reflexivity|].
  cbn [AuthToken.insert made_token AuthToken.user_id AuthToken.client_id
       AuthToken._scope AuthToken.t_user_id AuthToken.t_client_id AuthToken.t__scope].
  rewrite !join_split_space.
  repeat split.
Qed.

End MoreProperties.

(** ** The further properties on the small instance *)

Lemma token_required_parameters_witness :
  Demo.token_route (Demo.token_post [("grant_type", "authorization_code");
                                     ("client_id", "app-key")])
                   (seconds 1010) Demo.s0
    = (Returned (jsonify [("error", JStr "invalid_request")] 400 []), Demo.s0)
  /\ Demo.token_route (Demo.token_post [("grant_type", "refresh_token");
                                        ("client_id", "app-key");
                                        ("client_secret", "app-secret")])
                      (seconds 1010) Demo.s0
     = (Returned (jsonify [("error", JStr "unsupported_grant_type")] 400 []), Demo.s0).
Proof.
  split.
  - apply (proj1 (token_required_parameters Demo.newid_at Demo.check_password_hash
             (Demo.token_post [("grant_type", "authorization_code");
                               ("client_id", "app-key")])
             (seconds 1010) Demo.s0)).
    right. right. reflexivity.
  - apply (proj2 (token_required_parameters Demo.newid_at Demo.check_password_hash
             (Demo.token_post [("grant_type", "refresh_token");
                               ("client_id", "app-key");
                               ("client_secret", "app-secret")])
             (seconds 1010) Demo.s0) "refresh_token");
      try reflexivity; discriminate.
Defined.

Lemma token_client_authentication_witness :
  Demo.token_route (Demo.token_post [("grant_type", "client_credentials");
                                     ("client_id", "no-such-key");
                                     ("client_secret", "app-secret")])
                   (seconds 1010) Demo.s0
    = (Returned (jsonify [("error", JStr "invalid_client");
                          ("error_description", JStr "Unknown client_id")] 400 []),
       Demo.s0)
  /\ Demo.token_route (Demo.token_post [("grant_type", "client_credentials");
                                        ("client_id", "old-key");
                                        ("client_secret", "old-secret")])
                      (seconds 1010) Demo.s0
     = (Returned (jsonify [("error", JStr "invalid_client");
                           ("error_description", JStr "Unknown client_id")] 400 []),
        Demo.s0)
  /\ Demo.token_route (Demo.token_post [("grant_type", "client_credentials");
                                        ("client_id", "app-key");
                                        ("client_secret", "guess")])
                      (seconds 1010) Demo.s0
     = (Returned (jsonify [("error", JStr "invalid_client");
                           ("error_description", JStr "client_secret mismatch")] 400 []),
        Demo.s0).
Proof.
  split; [|split].
  - apply (proj1 (token_client_authentication Demo.newid_at Demo.check_password_hash
             (Demo.token_post [("grant_type", "client_credentials");
                               ("client_id", "no-such-key");
                               ("client_secret", "app-secret")])
             (seconds 1010) Demo.s0 "client_credentials"
             eq_refl (or_intror (or_introl eq_refl)) eq_refl eq_refl)).
    reflexivity.
  - apply (proj1 (proj2 (token_client_authentication Demo.newid_at
             Demo.check_password_hash
             (Demo.token_post [("grant_type", "client_credentials");
                               ("client_id", "old-key");
                               ("client_secret", "old-secret")])
             (seconds 1010) Demo.s0 "client_credentials"
             eq_refl (or_intror (or_introl eq_refl)) eq_refl eq_refl)) Demo.old);
      reflexivity.
  - apply (proj2 (proj2 (token_client_authentication Demo.newid_at
             Demo.check_password_hash
             (Demo.token_post [("grant_type", "client_credentials");
                               ("client_id", "app-key");
                               ("client_secret", "guess")])
             (seconds 1010) Demo.s0 "client_credentials"
             eq_refl (or_intror (or_introl eq_refl)) eq_refl eq_refl)) Demo.app);
      try reflexivity; discriminate.
Defined.

Lemma authorization_code_exchange_witness :
  exists t,
    authtokens (db (snd (Demo.token_route (Demo.redeem [("scope", "id")])
                           (seconds 1010) Demo.s0))) = [t]
    /\ AuthToken.user_id t = Some 1%nat
    /\ AuthToken.scope t = ["id"]
    /\ fst (Demo.token_route (Demo.redeem [("scope", "id")]) (seconds 1010) Demo.s0)
       = Returned (jsonify [("access_token", JStr "r."); ("token_type", JNull);
                            ("scope", JStr "id")] 200 [("Cache-Control", "no-store")]).
Proof.
  assert (Hage : seconds 1010 - AuthCode.datetime Demo.grant <= seconds 60)
    by (unfold seconds; simpl; lia).
  destruct (authorization_code_exchange Demo.newid_at Demo.check_password_hash
              (Demo.redeem [("scope", "id")]) (seconds 1010) Demo.s0 Demo.app Demo.grant
              eq_refl eq_refl eq_refl eq_refl eq_refl eq_refl eq_refl Hage
              eq_refl eq_refl)
    as (t & Htokens & Huser & _ & Hscope & Htoken & _ & Hresponse).
  exists t. unfold Demo.token_route.
  rewrite Htokens, Hresponse, Htoken. auto.
Defined.


Lemma password_grant_follows_login_form_witness :
  (exists t,
     authtokens (db (snd (Demo.token_route
        (Demo.token_post [("grant_type", "password"); ("client_id", "sso-key");
                          ("client_secret", "sso-secret");
                          ("username", "alice@example.com");
                          ("password", "wonderland"); ("scope", "id")])
        (seconds 1010) Demo.s0))) = [t]
     /\ AuthToken.user_id t = Some (User.id Demo.alice))
  /\ exists description,
       Demo.token_route
         (Demo.token_post [("grant_type", "password"); ("client_id", "sso-key");
                           ("client_secret", "sso-secret");
                           ("username", "alice"); ("password", "looking-glass")])
         (seconds 1010) Demo.s0
       = (Returned (jsonify [("error", JStr "invalid_client");
                             ("error_description", JStr description)] 400 []),
          Demo.s0).
Proof.
  split.
  - destruct (proj1 (password_grant_follows_login_form Demo.newid_at
                Demo.check_password_hash
                (Demo.token_post [("grant_type", "password"); ("client_id", "sso-key");
                                  ("client_secret", "sso-secret");
                                  ("username", "alice@example.com");
                                  ("password", "wonderland"); ("scope", "id")])
                (seconds 1010) Demo.s0 Demo.sso "alice@example.com" "wonderland"
                eq_refl eq_refl eq_refl eq_refl eq_refl eq_refl eq_refl eq_refl eq_refl)
                Demo.alice eq_refl)
      as (t & Htokens & Huser & _).
    exists t. split; [exact Htokens | exact Huser].
  - destruct (proj1 (proj2 (password_grant_follows_login_form Demo.newid_at
                Demo.check_password_hash
                (Demo.token_post [("grant_type", "password"); ("client_id", "sso-key");
                                  ("client_secret", "sso-secret");
                                  ("username", "alice"); ("password", "looking-glass")])
                (seconds 1010) Demo.s0 Demo.sso "alice" "looking-glass"
                eq_refl eq_refl eq_refl eq_refl eq_refl eq_refl eq_refl eq_refl eq_refl))
                "Invalid password" eq_refl)
      as (description & Hresponse).
    exists description. exact Hresponse.
Defined.

Lemma password_grant_refusals_witness :
  Demo.token_route
    (Demo.token_post [("grant_type", "password"); ("client_id", "app-key");
                      ("client_secret", "app-secret");
                      ("username", "alice"); ("password", "wonderland")])
    (seconds 1010) Demo.s0
    = (Returned (jsonify [("error", JStr "unauthorized_client");
                          ("error_description",
                           JStr "Client not trusted for password grant_type")] 400 []),
       Demo.s0)
  /\ Demo.token_route
       (Demo.token_post [("grant_type", "password"); ("client_id", "sso-key");
                         ("client_secret", "sso-secret"); ("username", "alice")])
       (seconds 1010) Demo.s0
     = (Returned (jsonify [("error", JStr "invalid_request");
                           ("error_description",
                            JStr "Username or password not provided")] 400 []),
        Demo.s0).
Proof.
  split.
  - apply (proj1 (password_grant_refusals Demo.newid_at Demo.check_password_hash
             (Demo.token_post [("grant_type", "password"); ("client_id", "app-key");
                               ("client_secret", "app-secret");
                               ("username", "alice"); ("password", "wonderland")])
             (seconds 1010) Demo.s0 Demo.app
             eq_refl eq_refl eq_refl eq_refl eq_refl eq_refl)).
    reflexivity.
  - apply (proj2 (password_grant_refusals Demo.newid_at Demo.check_password_hash
             (Demo.token_post [("grant_type", "password"); ("client_id", "sso-key");
                               ("client_secret", "sso-secret"); ("username", "alice")])
             (seconds 1010) Demo.s0 Demo.sso
             eq_refl eq_refl eq_refl eq_refl eq_refl eq_refl)).
    + reflexivity.
    + right. reflexivity.
Defined.

Lemma tokens_only_for_authenticated_clients_witness :
  exists client,
    Client_by_key (Some "sso-key") Demo.database = Some client
    /\ Client.active client = true
    /\ Client.secret client = "sso-secret".
Proof.
  destruct (tokens_only_for_authenticated_clients Demo.newid_at
              Demo.check_password_hash
              (Demo.token_post [("grant_type", "client_credentials");
                                ("client_id", "sso-key");
                                ("client_secret", "sso-secret")])
              (seconds 1010) Demo.s0)
    as (client & Hclient & Hactive & Hsecret & _).
  - discriminate.
  - exists client. split; [exact Hclient|]. split; [exact Hactive|].
    injection Hsecret as <-. reflexivity.
Defined.

Lemma client_credentials_any_scope_witness :
  exists t,
    authtokens (db (snd (Demo.token_route
       (Demo.token_post [("grant_type", "client_credentials");
                         ("client_id", "app-key"); ("client_secret", "app-secret");
                         ("scope", "id email admin")])
       (seconds 1010) Demo.s0))) = [t]
    /\ AuthToken.user_id t = None
    /\ AuthToken._scope t = "id email admin".
Proof.
  destruct (client_credentials_any_scope Demo.newid_at Demo.check_password_hash
              (Demo.token_post [("grant_type", "client_credentials");
                                ("client_id", "app-key");
                                ("client_secret", "app-secret");
                                ("scope", "id email admin")])
              (seconds 1010) Demo.s0 Demo.app
              eq_refl eq_refl eq_refl eq_refl eq_refl eq_refl)
    as (t & Htokens & Huser & _ & Hscope & _).
  exists t. split; [exact Htokens|]. split; [exact Huser | exact Hscope].
Defined.

Lemma trusted_client_skips_consent_witness :
  (fst (Demo.authorize Demo.alice
          (Demo.auth_get [("client_id", "sso-key"); ("response_type", "code");
                          ("scope", "id"); ("state", "xyz")]) (seconds 1000) Demo.s0)
     = Returned (redirect "https://sso.example/cb?state=xyz&code=r.rx." 302)
   /\ authcodes (db (snd (Demo.authorize Demo.alice
          (Demo.auth_get [("client_id", "sso-key"); ("response_type", "code");
                          ("scope", "id"); ("state", "xyz")]) (seconds 1000) Demo.s0)))
      = [Demo.grant;
         AuthCode.mk 1 2 "r.rx." "id" "https://sso.example/cb" (seconds 1000) false])
  /\ (fst (Demo.authorize Demo.alice
          (Demo.auth_get [("client_id", "sso-key"); ("response_type", "code");
                          ("scope", "id"); ("state", DemoText.e_acute)])
          (seconds 1000) Demo.s0)
     = Raised UnicodeEncodeError
   /\ authcodes (db (snd (Demo.authorize Demo.alice
          (Demo.auth_get [("client_id", "sso-key"); ("response_type", "code");
                          ("scope", "id"); ("state", DemoText.e_acute)])
          (seconds 1000) Demo.s0)))
      = [Demo.grant;
         AuthCode.mk 1 2 "r.rx." "id" "https://sso.example/cb" (seconds 1000) false]).
Proof.
  split.
  - unfold Demo.authorize.
    rewrite (proj1 (trusted_client_skips_consent Demo.newid_at Demo.urlsplit
               Demo.hostname Demo.parse_qsl Demo.urlencode_ascii Demo.urlunsplit
               Demo.alice
               (Demo.auth_get [("client_id", "sso-key"); ("response_type", "code");
                               ("scope", "id"); ("state", "xyz")])
               (seconds 1000) Demo.s0 Demo.sso "https://sso.example/cb"
               eq_refl eq_refl eq_refl eq_refl eq_refl eq_refl eq_refl eq_refl)).
    split; reflexivity.
  - split.
    + apply (proj2 (trusted_client_skips_consent Demo.newid_at Demo.urlsplit
               Demo.hostname Demo.parse_qsl Demo.urlencode_ascii Demo.urlunsplit
               Demo.alice
               (Demo.auth_get [("client_id", "sso-key"); ("response_type", "code");
                               ("scope", "id"); ("state", DemoText.e_acute)])
               (seconds 1000) Demo.s0 Demo.sso "https://sso.example/cb"
               eq_refl eq_refl eq_refl eq_refl eq_refl eq_refl eq_refl eq_refl)
             DemoText.e_acute); reflexivity.
    + reflexivity.
Defined.

Lemma consent_decision_witness :
  fst (Demo.authorize Demo.alice
         (Request.mk "https://lastuser.example/auth" POST
            [("client_id", "app-key"); ("response_type", "code"); ("scope", "id")]
            [("accept", "Allow")] true) (seconds 1000) Demo.s0)
    = Returned (redirect "https://app.example/cb?code=r.rx." 302)
  /\ Demo.authorize Demo.alice
       (Request.mk "https://lastuser.example/auth" POST
          [("client_id", "app-key"); ("response_type", "code"); ("scope", "id")]
          [("deny", "Deny")] true) (seconds 1000) Demo.s0
     = (Returned (redirect "https://app.example/cb?error=access_denied" 302), Demo.s0)
  /\ fst (Demo.authorize Demo.alice
       (Request.mk "https://lastuser.example/auth" POST
          [("client_id", "app-key"); ("response_type", "code"); ("scope", "id");
           ("state", DemoText.e_acute)]
          [("deny", "Deny")] true) (seconds 1000) Demo.s0)
     = Raised UnicodeEncodeError.
Proof.
  split; [|split].
  - unfold Demo.authorize.
    rewrite (proj1 (consent_decision Demo.newid_at Demo.urlsplit Demo.hostname
               Demo.parse_qsl Demo.urlencode_ascii Demo.urlunsplit Demo.alice
               (Request.mk "https://lastuser.example/auth" POST
                  [("client_id", "app-key"); ("response_type", "code"); ("scope", "id")]
                  [("accept", "Allow")] true)
               (seconds 1000) Demo.s0 Demo.app "https://app.example/cb"
               eq_refl eq_refl eq_refl eq_refl eq_refl eq_refl eq_refl eq_refl)
             eq_refl).
    reflexivity.
  - apply (proj1 (proj2 (consent_decision Demo.newid_at Demo.urlsplit Demo.hostname
             Demo.parse_qsl Demo.urlencode_ascii Demo.urlunsplit Demo.alice
             (Request.mk "https://lastuser.example/auth" POST
                [("client_id", "app-key"); ("response_type", "code"); ("scope", "id")]
                [("deny", "Deny")] true)
             (seconds 1000) Demo.s0 Demo.app "https://app.example/cb"
             eq_refl eq_refl eq_refl eq_refl eq_refl eq_refl eq_refl eq_refl)));
      reflexivity.
  - apply (proj2 (proj2 (consent_decision Demo.newid_at Demo.urlsplit Demo.hostname
             Demo.parse_qsl Demo.urlencode_ascii Demo.urlunsplit Demo.alice
             (Request.mk "https://lastuser.example/auth" POST
                [("client_id", "app-key"); ("response_type", "code"); ("scope", "id");
                 ("state", DemoText.e_acute)]
                [("deny", "Deny")] true)
             (seconds 1000) Demo.s0 Demo.app "https://app.example/cb"
             eq_refl eq_refl eq_refl eq_refl eq_refl eq_refl eq_refl eq_refl))
           DemoText.e_acute); [reflexivity | reflexivity | right; reflexivity].
Defined.

Lemma consent_page_changes_nothing_witness :
  Demo.authorize Demo.alice
    (Demo.auth_get [("client_id", "app-key"); ("response_type", "code");
                    ("scope", "id"); ("state", "xyz")]) (seconds 1000) Demo.s0
    = (Returned (authorize_html Demo.app "https://app.example/cb" ["id"] (Some "xyz")),
       Demo.s0).
Proof.
  apply (consent_page_changes_nothing Demo.newid_at Demo.urlsplit Demo.hostname
           Demo.parse_qsl Demo.urlencode_ascii Demo.urlunsplit Demo.alice
           (Demo.auth_get [("client_id", "app-key"); ("response_type", "code");
                           ("scope", "id"); ("state", "xyz")])
           (seconds 1000) Demo.s0 Demo.app "https://app.example/cb"
           eq_refl eq_refl eq_refl eq_refl eq_refl eq_refl).
  left. split; reflexivity.
Defined.

Lemma unknown_client_witness :
  Demo.authorize Demo.alice
    (Demo.auth_get [("client_id", "no-such-key");
                    ("redirect_uri", "https://client.example/cb")]) 0 Demo.s0
    = (Returned (redirect "https://client.example/cb?error=unauthorized_client" 302),
       Demo.s0)
  /\ Demo.authorize Demo.alice (Demo.auth_get [("client_id", "no-such-key")]) 0 Demo.s0
     = (Returned (oauth403_html "Unknown client_id"), Demo.s0)
  /\ fst (Demo.authorize Demo.alice
            (Demo.auth_get [("client_id", "no-such-key");
                            ("redirect_uri", "https://client.example/cb");
                            ("state", DemoText.e_acute)]) 0 Demo.s0)
     = Raised UnicodeEncodeError.
Proof.
  split; [|split].
  - apply (proj1 (unknown_client Demo.newid_at Demo.urlsplit Demo.hostname
             Demo.parse_qsl Demo.urlencode_ascii Demo.urlunsplit Demo.alice
             (Demo.auth_get [("client_id", "no-such-key");
                             ("redirect_uri", "https://client.example/cb")])
             0 Demo.s0 eq_refl eq_refl) "https://client.example/cb").
    reflexivity.
  - apply (proj1 (proj2 (unknown_client Demo.newid_at Demo.urlsplit Demo.hostname
             Demo.parse_qsl Demo.urlencode_ascii Demo.urlunsplit Demo.alice
             (Demo.auth_get [("client_id", "no-such-key")])
             0 Demo.s0 eq_refl eq_refl))).
    reflexivity.
  - apply (proj2 (proj2 (unknown_client Demo.newid_at Demo.urlsplit Demo.hostname
             Demo.parse_qsl Demo.urlencode_ascii Demo.urlunsplit Demo.alice
             (Demo.auth_get [("client_id", "no-such-key");
                             ("redirect_uri", "https://client.example/cb");
                             ("state", DemoText.e_acute)])
             0 Demo.s0 eq_refl eq_refl))
           "https://client.example/cb" DemoText.e_acute); reflexivity.
Defined.

Lemma response_type_validation_witness :
  Demo.authorize Demo.alice
    (Demo.auth_get [("client_id", "app-key"); ("scope", "id")]) 0 Demo.s0
    = (Returned (redirect
         "https://app.example/cb?error_description=response_type missing&error=invalid_request"
         302), Demo.s0)
  /\ Demo.authorize Demo.alice
       (Demo.auth_get [("client_id", "app-key"); ("response_type", "token");
                       ("scope", "id")]) 0 Demo.s0
     = (Returned (redirect "https://app.example/cb?error=unsupported_response_type" 302),
        Demo.s0)
  /\ Demo.authorize Demo.alice
       (Demo.auth_get [("client_id", "app-key"); ("state", "xyz")]) 0 Demo.s0
     = (Returned (redirect
          "https://app.example/cb?state=xyz&error_description=response_type missing&error=invalid_request"
          302), Demo.s0)
  /\ fst (Demo.authorize Demo.alice
            (Demo.auth_get [("client_id", "app-key"); ("response_type", "token");
                            ("state", DemoText.e_acute)]) 0 Demo.s0)
     = Raised UnicodeEncodeError.
Proof.
  split; [|split; [|split]].
  - apply (proj1 (response_type_validation Demo.newid_at Demo.urlsplit Demo.hostname
             Demo.parse_qsl Demo.urlencode_ascii Demo.urlunsplit Demo.alice
             (Demo.auth_get [("client_id", "app-key"); ("scope", "id")])
             0 Demo.s0 Demo.app "https://app.example/cb"
             eq_refl eq_refl eq_refl eq_refl)).
    reflexivity.
  - apply (proj1 (proj2 (response_type_validation Demo.newid_at Demo.urlsplit
             Demo.hostname Demo.parse_qsl Demo.urlencode_ascii Demo.urlunsplit
             Demo.alice
             (Demo.auth_get [("client_id", "app-key"); ("response_type", "token");
                             ("scope", "id")])
             0 Demo.s0 Demo.app "https://app.example/cb"
             eq_refl eq_refl eq_refl eq_refl))).
    + reflexivity.
    + discriminate.
  - apply (proj1 (response_type_validation Demo.newid_at Demo.urlsplit Demo.hostname
             Demo.parse_qsl Demo.urlencode_ascii Demo.urlunsplit Demo.alice
             (Demo.auth_get [("client_id", "app-key"); ("state", "xyz")])
             0 Demo.s0 Demo.app "https://app.example/cb"
             eq_refl eq_refl eq_refl eq_refl)).
    reflexivity.
  - apply (proj2 (proj2 (response_type_validation Demo.newid_at Demo.urlsplit
             Demo.hostname Demo.parse_qsl Demo.urlencode_ascii Demo.urlunsplit
             Demo.alice
             (Demo.auth_get [("client_id", "app-key"); ("response_type", "token");
                             ("state", DemoText.e_acute)])
             0 Demo.s0 Demo.app "https://app.example/cb"
             eq_refl eq_refl eq_refl eq_refl)) DemoText.e_acute).
    + discriminate.
    + reflexivity.
    + reflexivity.
Defined.

Lemma auth_route_requires_login_witness :
  auth_route Demo.newid_at Demo.urlsplit Demo.hostname Demo.parse_qsl
    Demo.urlencode_ascii Demo.urlunsplit Demo.url_for_login
    [("userid", "u-mallory")]
    (Demo.auth_get [("client_id", "sso-key"); ("response_type", "code"); ("scope", "id")])
    (seconds 1000) Demo.s0
    = (Returned (redirect "/login?next=https://lastuser.example/auth" 302), Demo.s0)
  /\ auth_route Demo.newid_at Demo.urlsplit Demo.hostname Demo.parse_qsl
       Demo.urlencode_ascii Demo.urlunsplit Demo.url_for_login
       [("userid", "u-alice")]
       (Demo.auth_get [("client_id", "sso-key"); ("response_type", "code");
                       ("scope", "id")])
       (seconds 1000) Demo.s0
     = Demo.authorize Demo.alice
         (Demo.auth_get [("client_id", "sso-key"); ("response_type", "code");
                         ("scope", "id")])
         (seconds 1000) Demo.s0.
Proof.
  split.
  - apply (proj1 (auth_route_requires_login Demo.newid_at Demo.urlsplit Demo.hostname
             Demo.parse_qsl Demo.urlencode_ascii Demo.urlunsplit Demo.url_for_login
             [("userid", "u-mallory")]
             (Demo.auth_get [("client_id", "sso-key"); ("response_type", "code");
                             ("scope", "id")])
             (seconds 1000) Demo.s0)).
    right. exists "u-mallory". split; [reflexivity|].
    intros u [<- | []]. discriminate.
  - apply (proj2 (auth_route_requires_login Demo.newid_at Demo.urlsplit Demo.hostname
             Demo.parse_qsl Demo.urlencode_ascii Demo.urlunsplit Demo.url_for_login
             [("userid", "u-alice")]
             (Demo.auth_get [("client_id", "sso-key"); ("response_type", "code");
                             ("scope", "id")])
             (seconds 1000) Demo.s0) "u-alice" Demo.alice);
      reflexivity.
Defined.

(** [alice] authorizes [sso] at second 1000, and [sso] redeems the code it
    was sent 30 seconds later. *)
Lemma issued_code_can_be_redeemed_witness :
  exists t,
    authtokens (db (snd (Demo.token_route
       (Demo.token_post [("grant_type", "authorization_code"); ("client_id", "sso-key");
                         ("client_secret", "sso-secret"); ("code", "r.rx.");
                         ("redirect_uri", "https://sso.example/cb"); ("scope", "id")])
       (seconds 1030)
       (snd (Demo.authorize Demo.alice
               (Demo.auth_get [("client_id", "sso-key"); ("response_type", "code");
                               ("scope", "id")])
               (seconds 1000) Demo.s0))))) = [t]
    /\ AuthToken.user_id t = Some (User.id Demo.alice)
    /\ AuthToken.client_id t = Client.id Demo.sso
    /\ AuthToken.scope t = ["id"].
Proof.
  assert (Hage : seconds 1030 - seconds 1000 <= seconds 60)
    by (unfold seconds; lia).
  destruct (issued_code_can_be_redeemed Demo.newid_at Demo.urlsplit Demo.hostname
              Demo.parse_qsl Demo.urlencode_ascii Demo.urlunsplit
              Demo.check_password_hash Demo.alice
              (Demo.auth_get [("client_id", "sso-key"); ("response_type", "code");
                              ("scope", "id")])
              (Demo.token_post [("grant_type", "authorization_code");
                                ("client_id", "sso-key");
                                ("client_secret", "sso-secret"); ("code", "r.rx.");
                                ("redirect_uri", "https://sso.example/cb");
                                ("scope", "id")])
              (seconds 1000) (seconds 1030) Demo.s0 Demo.sso "https://sso.example/cb"
              eq_refl eq_refl eq_refl eq_refl eq_refl eq_refl
              (or_introl (conj eq_refl eq_refl)))
    as (t & Htokens & Huser & Hclient & Hscope & _).
  - intros a [<- | []]. discriminate.
  - reflexivity.
  - reflexivity.
  - reflexivity.
  - discriminate.
  - reflexivity.
  - reflexivity.
  - reflexivity.
  - exact Hage.
  - exists t. split; [exact Htokens|]. auto.
Defined.

Lemma logout_clears_session_witness :
  logout "/" [] (Demo.auth_get []) = LogoutKeyError
  /\ exists sess',
       logout "/"
         [("userid", SText "u-alice"); ("theme", SText "dark");
          ("_permanent", SBool true)]
         (Demo.auth_get [("next", "https://elsewhere.example/")])
       = LoggedOut (redirect "https://elsewhere.example/" 303) sess'
       /\ lookup "userid" sess' = None
       /\ lookup "_permanent" sess' = Some (SBool false)
       /\ lookup "_flashes" sess'
          = Some (SFlashes [("info", "You are now logged out")])
       /\ lookup "theme" sess' = Some (SText "dark").
Proof.
  split.
  - apply (proj1 (logout_clears_session "/" [] (Demo.auth_get []))). reflexivity.
  - destruct (proj1 (proj2 (logout_clears_session "/"
                       [("userid", SText "u-alice"); ("theme", SText "dark");
                        ("_permanent", SBool true)]
                       (Demo.auth_get [("next", "https://elsewhere.example/")])))
                    (SText "u-alice") [] eq_refl eq_refl)
      as (sess' & Hout & Hnone & _ & Hperm & Hfl & Hother).
    exists sess'. split; [exact Hout|]. split; [exact Hnone|].
    split; [exact Hperm|]. split; [exact Hfl|].
    rewrite Hother; [reflexivity | discriminate | discriminate | discriminate].
Defined.

Lemma identifier_lengths_witness :
  String.length
    (AuthToken.token
       (AuthToken.insert (seconds 1010)
          (made_token Demo22.newid_at None Demo.sso ["id"] 0))) = 22%nat
  /\ String.length
       (AuthCode.code
          (AuthCode.mk 1 2 (Demo22.newid_at 0 ++ Demo22.newid_at 1) "id"
             "https://sso.example/cb" (seconds 1000) false)) = 44%nat.
Proof.
  assert (Hlen : forall n, String.length (Demo22.newid_at n) = 22%nat)
    by (intros [|n]; reflexivity).
  split.
  - apply (proj1 (identifier_lengths Demo22.newid_at Demo.urlsplit Demo.hostname
             Demo.parse_qsl Demo.urlencode_ascii Demo.urlunsplit
             Demo.check_password_hash Hlen)
             (Demo.token_post [("grant_type", "client_credentials");
                               ("client_id", "sso-key");
                               ("client_secret", "sso-secret"); ("scope", "id")])
             (seconds 1010) Demo.s0).
    reflexivity.
  - apply (proj2 (identifier_lengths Demo22.newid_at Demo.urlsplit Demo.hostname
             Demo.parse_qsl Demo.urlencode_ascii Demo.urlunsplit
             Demo.check_password_hash Hlen)
             Demo.alice
             (Demo.auth_get [("client_id", "sso-key"); ("response_type", "code");
                             ("scope", "id")])
             (seconds 1000) Demo.s0).
    reflexivity.
Defined.
